(** * The assessment scorer and the report exporter of [app.py]

    A shallow embedding of the two request handlers of [app.py] that carry
    logic, [run_assessment] and [export_report_csv], and of the constant
    table served by [get_environmental_impact], with the properties the
    specification states about them.

    Python values are modelled as follows.
    - A [float] is an IEEE 754 binary64 number, [spec_float] with precision
      53 and maximal exponent 1024; arithmetic is the correctly rounded
      arithmetic of [SpecFloat].
    - An [int] is a [Z].
    - A [str] is a [string]: the UTF-8 bytes of its code points. A [str]
      can hold a surrogate code point on its own (the JSON text
      ["\ud800"] decodes to one); it is written on three bytes like the
      other code points from U+0800 to U+FFFF, so that every [str] has its
      [string], and it is what [str.encode] refuses.
    - The value decoded from a JSON document is a [json]; a [dict] with
      string keys is a [gmap string json].
    - An exception that leaves a function is the [Raise] result, with the
      builtin class the exception belongs to: a [UnicodeEncodeError] is a
      [ValueError]. *)

From Stdlib Require Import ZArith Bool List Ascii String DecimalString Permutation.
From Stdlib Require Import DecimalFacts DecimalPos DecimalN.
From Stdlib Require Import Floats.SpecFloat.
From stdpp Require Import gmap strings list fin_maps.

Local Open Scope Z_scope.
Set Warnings "-register-all".

(** ** Exceptions and results *)

Inductive exn : Set :=
| ValueError
| TypeError
| OverflowError
| AttributeError
| IndexError.

Inductive result (A : Type) : Type :=
| Ok (a : A)
| Raise (e : exn).
Arguments Ok {A} a.
Arguments Raise {A} e.

Definition rbind {A B : Type} (r : result A) (k : A -> result B) : result B :=
  match r with
  | Ok a => k a
  | Raise e => Raise e
  end.

Definition returns {A : Type} (r : result A) : Prop :=
  exists a, r = Ok a.

(** ** Binary64 floating point *)

Module Float64.

Definition prec : Z := 53.
Definition emax : Z := 1024.

Definition add : spec_float -> spec_float -> spec_float := SFadd prec emax.
Definition sub : spec_float -> spec_float -> spec_float := SFsub prec emax.
Definition mul : spec_float -> spec_float -> spec_float := SFmul prec emax.
Definition div : spec_float -> spec_float -> spec_float := SFdiv prec emax.

(** The double nearest to an integer, ties to even: the conversion
    Python applies to an [int] operand of a mixed operation and in
    [float(n)] (there an infinite result is an [OverflowError]). *)
Definition of_Z (z : Z) : spec_float := binary_normalize prec emax z 0 false.

Definition is_finite (x : spec_float) : bool :=
  match x with
  | S754_zero _ | S754_finite _ _ _ => true
  | S754_infinity _ | S754_nan => false
  end.

Definition is_zero (x : spec_float) : bool :=
  match x with
  | S754_zero _ => true
  | _ => false
  end.

(** The literals [0.3], [0.2] and [0.1] of the source: the doubles
    nearest to 3/10, 2/10 and 1/10. *)
Definition lit_0_3 : spec_float := S754_finite false 5404319552844595 (-54).
Definition lit_0_2 : spec_float := S754_finite false 7205759403792794 (-55).
Definition lit_0_1 : spec_float := S754_finite false 7205759403792794 (-56).

(** [m * 2^e] rounded to the nearest integer, ties to even, for [m > 0]. *)
Definition round_half_even (m : positive) (e : Z) : Z :=
  if 0 <=? e then Z.pos m * 2 ^ e
  else
    let d := 2 ^ (- e) in
    let q := Z.pos m / d in
    let r := Z.pos m mod d in
    match 2 * r ?= d with
    | Lt => q
    | Gt => q + 1
    | Eq => if Z.even q then q else q + 1
    end.

(** [m * 2^e] with its fractional part dropped, for [m > 0]. *)
Definition truncate (m : positive) (e : Z) : Z :=
  if 0 <=? e then Z.pos m * 2 ^ e else Z.pos m / 2 ^ (- e).

(** [round(x)] with one argument, [float.__round__]: the nearest
    integer, a tie going to the even neighbour; NaN is a [ValueError]
    and an infinity an [OverflowError]. *)
Definition py_round (x : spec_float) : result Z :=
  match x with
  | S754_zero _ => Ok 0
  | S754_finite s m e => Ok (cond_Zopp s (round_half_even m e))
  | S754_infinity _ => Raise OverflowError
  | S754_nan => Raise ValueError
  end.

(** [int(x)], [float.__int__]: truncation towards zero, with the same
    two errors. *)
Definition py_int (x : spec_float) : result Z :=
  match x with
  | S754_zero _ => Ok 0
  | S754_finite s m e => Ok (cond_Zopp s (truncate m e))
  | S754_infinity _ => Raise OverflowError
  | S754_nan => Raise ValueError
  end.

(** [math.floor(x)] on a finite double: used only to compare the
    specification's wording with [py_int]. *)
Definition floor (x : spec_float) : result Z :=
  match x with
  | S754_zero _ => Ok 0
  | S754_finite false m e => Ok (truncate m e)
  | S754_finite true m e =>
      Ok (if 0 <=? e then - (Z.pos m * 2 ^ e)
          else - ((Z.pos m + 2 ^ (- e) - 1) / 2 ^ (- e)))
  | S754_infinity _ => Raise OverflowError
  | S754_nan => Raise ValueError
  end.

End Float64.

(** ** Values decoded from the request body *)

Inductive json : Type :=
| JNull
| JBool (b : bool)
| JInt (z : Z)
| JFloat (f : spec_float)
| JStr (s : string)
| JArr (l : list json)
| JObj (l : list (string * json)).

(** Truth value of an object, as [or] tests it. NaN is true. *)
Definition truthy (v : json) : bool :=
  match v with
  | JNull => false
  | JBool b => b
  | JInt z => negb (z =? 0)
  | JFloat f => negb (Float64.is_zero f)
  | JStr s => negb (String.eqb s "")
  | JArr l => negb (Nat.eqb (length l) 0)
  | JObj l => negb (Nat.eqb (length l) 0)
  end.

(** [a or b] *)
Definition py_or (a b : json) : json := if truthy a then a else b.

(** [d.get(key, default)] and [d.get(key)] *)
Definition dict_get (d : gmap string json) (key : string) (dflt : json) : json :=
  default dflt (d !! key).

Definition dict_get_none (d : gmap string json) (key : string) : json :=
  dict_get d key JNull.

(** *** [str.lower]

    ASCII capitals are mapped to small letters. A code point outside
    ASCII is encoded by bytes of 128 and more, which are kept: the only
    such code point whose lower case is ASCII text is U+212A, which gives
    the letter k, so the result is compared rightly with a literal that
    has no k in it. *)
Definition lower_ascii (c : ascii) : ascii :=
  let n := nat_of_ascii c in
  if (Nat.leb 65 n && Nat.leb n 90)%bool then ascii_of_nat (n + 32) else c.

Fixpoint lower (s : string) : string :=
  match s with
  | EmptyString => EmptyString
  | String c s' => String (lower_ascii c) (lower s')
  end.

(** [v.lower()]: only a [str] has the method. *)
Definition call_lower (v : json) : result string :=
  match v with
  | JStr s => Ok (lower s)
  | _ => Raise AttributeError
  end.

(** *** [str.encode]

    A surrogate, a code point from U+D800 to U+DFFF, is written on the
    byte 237 followed by a byte from 160 to 191 and a third one; no other
    code point has these two bytes, and no continuation byte is 237. *)
Definition surrogate_bytes (c d : ascii) : bool :=
  (Nat.eqb (nat_of_ascii c) 237
   && Nat.leb 160 (nat_of_ascii d) && Nat.leb (nat_of_ascii d) 191)%bool.

Fixpoint has_surrogate (s : string) : bool :=
  match s with
  | EmptyString => false
  | String c s' =>
      match s' with
      | EmptyString => false
      | String d _ => surrogate_bytes c d || has_surrogate s'
      end
  end.

(** [s.encode()], to UTF-8 with the strict error handler: a surrogate
    cannot be encoded, which is a [UnicodeEncodeError]. *)
Definition str_encode (s : string) : result string :=
  if has_surrogate s then Raise ValueError else Ok s.

(** [s in (a, b)] for strings *)
Definition in_pair (s a b : string) : bool := String.eqb s a || String.eqb s b.

(** *** [int] and [float] conversions of the arithmetic *)

Definition Z_of_bool (b : bool) : Z := if b then 1 else 0.

(** [float(n)] for an [int]. *)
Definition float_of_int (z : Z) : result spec_float :=
  let f := Float64.of_Z z in
  if Float64.is_finite f then Ok f else Raise OverflowError.

(** [a + b] on the values the handler can add: two strings, two numbers
    ([bool] is an [int]), two lists. Everything else is a [TypeError]. *)
Definition py_add (a b : json) : result json :=
  match a, b with
  | JStr s, JStr t => Ok (JStr (s +:+ t))
  | JArr l, JArr k => Ok (JArr (l ++ k))
  | JInt x, JInt y => Ok (JInt (x + y))
  | JInt x, JBool y => Ok (JInt (x + Z_of_bool y))
  | JBool x, JInt y => Ok (JInt (Z_of_bool x + y))
  | JBool x, JBool y => Ok (JInt (Z_of_bool x + Z_of_bool y))
  | JFloat x, JFloat y => Ok (JFloat (Float64.add x y))
  | JFloat x, JInt y => rbind (float_of_int y) (fun fy => Ok (JFloat (Float64.add x fy)))
  | JFloat x, JBool y => Ok (JFloat (Float64.add x (Float64.of_Z (Z_of_bool y))))
  | JInt x, JFloat y => rbind (float_of_int x) (fun fx => Ok (JFloat (Float64.add fx y)))
  | JBool x, JFloat y => Ok (JFloat (Float64.add (Float64.of_Z (Z_of_bool x)) y))
  | _, _ => Raise TypeError
  end.

(** ** The result of an assessment *)

Record AssessmentResult : Type := {
  circularityScore : Z;
  environmentalScore : Z;
  recommendations : list string;
  missingParams : Z;
  debug_missingFields : list string
}.

Definition expected_fields : list string :=
  [ "material"; "production"; "rawMaterial"; "recycledContent";
    "energyUse"; "transport"; "endOfLife" ]%string.

Definition catalog : list string :=
  [ "Increase recycled content to reduce virgin input dependency";
    "Optimize transport routes and prefer rail/sea logistics";
    "Adopt closed-loop water systems in processing";
    "Redesign product for easier disassembly and reuse" ]%string.

(** ** The handler [run_assessment]

    Two parts of the Python runtime are parameters of the development:
    the conversion of text to a double done by [float(s)], and the
    generator behind the module [random]. *)

(** The arguments of [random.seed] that fix the state it installs. *)
Inductive seed_key : Type :=
| SeedInt (z : Z)
| SeedFloat (f : spec_float)
| SeedStr (s : string).

Section Handler.

(** [float(s)] for a [str]; [None] stands for the [ValueError] raised
    when [s] is not the text of a number. *)
Variable float_of_str : string -> option spec_float.

(** The state of the generator shared by the functions of [random];
    the state [random.seed(a)] installs for an [int], a [float] or a
    [str]; the state it installs when the argument does not fix it,
    [None], seeded from the operating system, and NaN, hashed by its
    address; and [_randbelow(n)]. *)
Variable rng : Type.
Variable seed : seed_key -> rng.
Variable reseed : rng -> rng.
Variable randbelow : rng -> nat -> nat * rng.

(** A computation that may raise and that reads and writes the
    generator. *)
Definition M (A : Type) : Type := rng -> result A * rng.

Definition ret {A : Type} (a : A) : M A := fun g => (Ok a, g).

Definition bind {A B : Type} (m : M A) (k : A -> M B) : M B :=
  fun g =>
    match m g with
    | (Ok a, g') => k a g'
    | (Raise e, g') => (Raise e, g')
    end.

Definition lift {A : Type} (r : result A) : M A := fun g => (r, g).

Notation "'let!' x ':=' m 'in' k" := (bind m (fun x => k))
  (at level 10, x pattern, m at level 100, k at level 200).

(** [float(v)] *)
Definition py_float (v : json) : result spec_float :=
  match v with
  | JFloat f => Ok f
  | JInt z => float_of_int z
  | JBool b => Ok (Float64.of_Z (Z_of_bool b))
  | JStr s =>
      match float_of_str s with
      | Some f => Ok f
      | None => Raise ValueError
      end
  | JNull | JArr _ | JObj _ => Raise TypeError
  end.

(** [random.seed(a)]: a text is encoded first, [a = a.encode()], and the
    state is written only after that. *)
Definition random_seed (a : json) : M unit :=
  fun g =>
    match a with
    | JNull | JFloat S754_nan => (Ok tt, reseed g)
    | JBool b => (Ok tt, seed (SeedInt (Z_of_bool b)))
    | JInt z => (Ok tt, seed (SeedInt z))
    | JFloat f => (Ok tt, seed (SeedFloat f))
    | JStr s =>
        match str_encode s with
        | Ok encoded => (Ok tt, seed (SeedStr encoded))
        | Raise e => (Raise e, g)
        end
    | JArr _ | JObj _ => (Raise TypeError, g)
    end.

(** [x[i], x[j] = x[j], x[i]] *)
Definition swap {A : Type} (x : list A) (i j : nat) : result (list A) :=
  match x !! j, x !! i with
  | Some xj, Some xi => Ok (<[j := xi]> (<[i := xj]> x))
  | _, _ => Raise IndexError
  end.

(** The loop of [random.shuffle]:
    [for i in reversed(range(1, len(x))): j = randbelow(i + 1); swap],
    entered at index [i]. *)
Fixpoint shuffle_from {A : Type} (i : nat) (x : list A) : M (list A) :=
  match i with
  | O => ret x
  | S i' =>
      fun g =>
        let '(j, g') := randbelow g (i + 1) in
        match swap x i j with
        | Ok x' => shuffle_from i' x' g'
        | Raise e => (Raise e, g')
        end
  end.

Definition random_shuffle {A : Type} (x : list A) : M (list A) :=
  shuffle_from (length x - 1)%nat x.

(** [float(process_data.get(key, 50) or 0)] *)
Definition numeric_field (process_data : gmap string json) (key : string)
  : result spec_float :=
  py_float (py_or (dict_get process_data key (JInt 50)) (JInt 0)).

(** [process_data.get(key, "") or dflt] *)
Definition text_field (process_data : gmap string json) (key dflt : string)
  : json :=
  py_or (dict_get process_data key (JStr "")) (JStr dflt).

(** [process_data.get(key) or ""] *)
Definition seed_part (process_data : gmap string json) (key : string) : json :=
  py_or (dict_get_none process_data key) (JStr "").

(** [max(0, min(100, n))] *)
Definition clamp (n : Z) : Z := Z.max 0 (Z.min 100 n).

Definition run_assessment (process_data : gmap string json)
  : M AssessmentResult :=
  let missing_fields :=
    filter (fun f => process_data !! f = None) expected_fields in
  let! recycled := lift (numeric_field process_data "recycledContent") in
  let! raw_material := lift (numeric_field process_data "rawMaterial") in
  let energy_use := text_field process_data "energyUse" "medium" in
  let transport := text_field process_data "transport" "road" in
  let base_circularity :=
    Float64.add (Float64.of_Z 50)
      (Float64.mul (Float64.sub recycled raw_material) Float64.lit_0_3) in
  let! energy_lower := lift (call_lower energy_use) in
  let base_circularity :=
    if in_pair energy_lower "low" "renewable"
    then Float64.add base_circularity (Float64.of_Z 10)
    else base_circularity in
  let! transport_lower := lift (call_lower transport) in
  let base_circularity :=
    if in_pair transport_lower "rail" "sea"
    then Float64.add base_circularity (Float64.of_Z 5)
    else base_circularity in
  let! rounded := lift (Float64.py_round base_circularity) in
  let base_circularity := clamp rounded in
  let! truncated := lift (Float64.py_int
    (Float64.sub (Float64.mul recycled Float64.lit_0_2)
                 (Float64.mul raw_material Float64.lit_0_1))) in
  let environmental_score := 60 + truncated in
  let environmental_score := clamp environmental_score in
  let! seed_arg := lift (py_add (seed_part process_data "material")
                           (seed_part process_data "production")) in
  let! _ := random_seed seed_arg in
  let! recommendations := random_shuffle catalog in
  ret {| circularityScore := base_circularity;
         environmentalScore := environmental_score;
         recommendations := take 4 recommendations;
         missingParams := Z.max 0 (Z.of_nat (length missing_fields));
         debug_missingFields := missing_fields |}.

(** The mapping a decoded JSON object stands for; of two entries with
    the same key the later one stays. *)
Definition dict_of (l : list (string * json)) : gmap string json :=
  fold_left (fun d kv => <[ fst kv := snd kv ]> d) l ∅.

(** The route [POST /api/assessment] from the decoded request body, [None]
    when there is none or it is not JSON:
    [payload = request.get_json(silent=True) or {}], then
    [process_data = payload.get("processData", {})], then the handler on
    [process_data], answered with the status 200. A payload that is not a
    mapping has no [get]; on a [process_data] that is not a mapping either
    the test [f not in process_data] is a [TypeError] or, for a text or a
    list, the later [process_data.get] is an [AttributeError]. *)
Definition post_api_assessment (body : option json) : M (AssessmentResult * Z) :=
  let payload := py_or (default JNull body) (JObj []) in
  match payload with
  | JObj entries =>
      match dict_get (dict_of entries) "processData" (JObj []) with
      | JObj process_data =>
          let! result := run_assessment (dict_of process_data) in
          ret (result, 200)
      | JStr _ | JArr _ => lift (Raise AttributeError)
      | JNull | JBool _ | JInt _ | JFloat _ => lift (Raise TypeError)
      end
  | _ => lift (Raise AttributeError)
  end.

End Handler.

(** ** What the client is answered

    Flask answers the pair a view returns with that status. An exception
    that leaves the view is not handled anywhere in [app.py] (the only
    handler registered is the one of the error 404), so Flask, or the
    debugger of [app.run(debug=True)], answers it with the status 500 of
    an internal server error. *)
Definition http_status {A : Type} (r : result (A * Z)) : Z :=
  match r with
  | Ok (_, status) => status
  | Raise _ => 500
  end.

(** The decoded body [{"processData": process_data}]. *)
Definition assessment_body (process_data : list (string * json)) : json :=
  JObj [("processData"%string, JObj process_data)].

(** ** The formulas as the specification words them *)

(** Two strings compare equal when case is ignored. *)
Definition equal_ignoring_case (s t : string) : bool :=
  String.eqb (lower s) (lower t).

(** Circularity: 50 plus three tenths of the difference, plus 10 for a
    low or renewable energy use, plus 5 for rail or sea transport,
    rounded and clamped to 0..100. *)
Definition circularity_formula (recycledContent rawMaterial : spec_float)
    (energyUse transport : string) : result Z :=
  let score :=
    Float64.add (Float64.of_Z 50)
      (Float64.mul (Float64.sub recycledContent rawMaterial) Float64.lit_0_3) in
  let score :=
    if equal_ignoring_case energyUse "low"
       || equal_ignoring_case energyUse "renewable"
    then Float64.add score (Float64.of_Z 10) else score in
  let score :=
    if equal_ignoring_case transport "rail"
       || equal_ignoring_case transport "sea"
    then Float64.add score (Float64.of_Z 5) else score in
  rbind (Float64.py_round score) (fun n => Ok (Z.max 0 (Z.min 100 n))).

(** Environmental score, with the integer part taken by [to_int]:
    [Float64.floor] for the formula as worded, [Float64.py_int] for the
    cast that drops the fraction. *)
Definition environmental_formula (to_int : spec_float -> result Z)
    (recycledContent rawMaterial : spec_float) : result Z :=
  rbind (to_int (Float64.sub (Float64.mul recycledContent Float64.lit_0_2)
                             (Float64.mul rawMaterial Float64.lit_0_1)))
        (fun n => Ok (Z.max 0 (Z.min 100 (60 + n)))).

(** A field read as the specification says: the empty string when the
    key is absent. *)
Definition field_or_empty (process_data : gmap string json) (key : string) : json :=
  default (JStr "") (process_data !! key).

(** The double a numeric field stands for: 50 when the key is absent,
    [empty_default] when its value is empty (false as a condition), and
    the value converted by [float] otherwise. The specification words it
    with [empty_default] at 50. *)
Definition field_value (float_of_str : string -> option spec_float)
    (empty_default : spec_float) (process_data : gmap string json)
    (key : string) (f : spec_float) : Prop :=
  match process_data !! key with
  | None => f = Float64.of_Z 50
  | Some v =>
      if truthy v then py_float float_of_str v = Ok f else f = empty_default
  end.

(** A numeric field whose value is a non-empty text that [float]
    rejects. *)
Definition rejected_text (float_of_str : string -> option spec_float)
    (process_data : gmap string json) (key : string) : Prop :=
  exists s, process_data !! key = Some (JStr s) /\ s <> ""%string /\
            float_of_str s = None.

(** An argument that [random.seed] takes without raising: a number, or a
    text that can be encoded. *)
Definition accepted_seed (a : json) : bool :=
  match a with
  | JArr _ | JObj _ => false
  | JStr s => negb (has_surrogate s)
  | JNull | JBool _ | JInt _ | JFloat _ => true
  end.

(** ** A concrete runtime, to run the handler on inputs *)

Module Demo.

(** A generator for the tests: the state is a counter, [randbelow]
    returns it modulo [n]. *)
Definition demo_seed (k : seed_key) : nat :=
  match k with
  | SeedStr s => String.length s
  | SeedInt z => Z.to_nat (Z.abs z)
  | _ => O
  end.

Definition demo_reseed (g : nat) : nat := (g * 7 + 1)%nat.

Definition demo_randbelow (g : nat) (n : nat) : nat * nat :=
  (g mod n, S g)%nat.

(** A conversion for the tests: text made of decimal digits only. *)
Fixpoint digits_value (s : string) (acc : Z) : option Z :=
  match s with
  | EmptyString => Some acc
  | String c s' =>
      let n := nat_of_ascii c in
      if (Nat.leb 48 n && Nat.leb n 57)%bool
      then digits_value s' (10 * acc + Z.of_nat (n - 48))
      else None
  end.

Definition demo_float_of_str (s : string) : option spec_float :=
  match s with
  | EmptyString => None
  | _ => option_map Float64.of_Z (digits_value s 0)
  end.

Definition run_state (process_data : gmap string json) (g : nat)
  : result AssessmentResult * nat :=
  run_assessment demo_float_of_str nat demo_seed demo_reseed demo_randbelow
    process_data g.

Definition run (process_data : gmap string json) : result AssessmentResult :=
  fst (run_state process_data O).

End Demo.

Definition spec_example_input : gmap string json :=
  <[ "recycledContent" := JInt 80 ]>
  (<[ "rawMaterial" := JInt 20 ]>
  (<[ "energyUse" := JStr "renewable" ]>
  (<[ "transport" := JStr "rail" ]> ∅))).

(** The two inputs whose material and production differ while their
    concatenation is the same text. *)
Definition input_ab : gmap string json :=
  <[ "material" := JStr "ab" ]> (<[ "production" := JStr "" ]> ∅).

Definition input_a_b : gmap string json :=
  <[ "material" := JStr "a" ]> (<[ "production" := JStr "b" ]> ∅).

(** Inputs on which the wording of the specification and the code part. *)

(** recycledContent present and empty. *)
Definition input_empty_recycled : gmap string json :=
  <[ "recycledContent" := JStr "" ]> ∅.

(** recycledContent 0 and rawMaterial 5: the environmental value is -0.5. *)
Definition input_0_5 : gmap string json :=
  <[ "recycledContent" := JInt 0 ]> (<[ "rawMaterial" := JInt 5 ]> ∅).

(** energyUse a number. *)
Definition input_energy_5 : gmap string json :=
  <[ "energyUse" := JInt 5 ]> ∅.

(** recycledContent a list, and recycledContent NaN. *)
Definition input_recycled_list : gmap string json :=
  <[ "recycledContent" := JArr [JInt 1] ]> ∅.

Definition input_recycled_nan : gmap string json :=
  <[ "recycledContent" := JFloat S754_nan ]> ∅.

(** material the surrogate U+D800 alone, as the JSON text ["\ud800"]
    decodes. *)
Definition lone_surrogate : string :=
  String (ascii_of_nat 237) (String (ascii_of_nat 160)
    (String (ascii_of_nat 128) EmptyString)).

Definition input_material_surrogate : gmap string json :=
  <[ "material" := JStr lone_surrogate ]> ∅.

(** material 1 and production 2: their sum 3 is the seed. *)
Definition input_material_numbers : gmap string json :=
  <[ "material" := JInt 1 ]> (<[ "production" := JInt 2 ]> ∅).

(** ** The values the handler computes on the way

    The score expressions of [run_assessment], named so that statements
    can refer to them. *)

Definition circularity_value (recycled raw_material : spec_float)
    (energy_lower transport_lower : string) : spec_float :=
  let base := Float64.add (Float64.of_Z 50)
                (Float64.mul (Float64.sub recycled raw_material) Float64.lit_0_3) in
  let base := if in_pair energy_lower "low" "renewable"
              then Float64.add base (Float64.of_Z 10) else base in
  if in_pair transport_lower "rail" "sea"
  then Float64.add base (Float64.of_Z 5) else base.

Definition environmental_value (recycled raw_material : spec_float) : spec_float :=
  Float64.sub (Float64.mul recycled Float64.lit_0_2)
              (Float64.mul raw_material Float64.lit_0_1).

(** ** The constant table of [get_environmental_impact] *)

Record EnvironmentalImpact : Type := {
  name : string;
  conventional : Z;
  circular : Z
}.

Definition get_environmental_impact : list EnvironmentalImpact :=
  [ {| name := "CO2 Emissions"; conventional := 850; circular := 320 |};
    {| name := "Energy Use"; conventional := 1200; circular := 680 |};
    {| name := "Water Use"; conventional := 400; circular := 180 |};
    {| name := "Waste Gen."; conventional := 200; circular := 45 |} ].

(** ** The report exporter [export_report_csv] *)

Module Csv.

(** A value handed to [csv.writer]: text, or an [int] written through
    [str]. *)
Inductive cell : Type :=
| CStr (s : string)
| CInt (z : Z).

(** [str(n)] *)
Definition str_of_Z (z : Z) : string := NilEmpty.string_of_int (Z.to_int z).

Definition cell_text (c : cell) : string :=
  match c with
  | CStr s => s
  | CInt z => str_of_Z z
  end.

Definition comma : ascii := ascii_of_nat 44.
Definition quotechar : ascii := ascii_of_nat 34.
Definition CR : ascii := ascii_of_nat 13.
Definition LF : ascii := ascii_of_nat 10.

(** The default dialect: delimiter [,], quote character, doubled inside
    a quoted field, minimal quoting, line terminator CR LF. *)
Definition lineterminator : string := String CR (String LF EmptyString).

Definition special (c : ascii) : bool :=
  Ascii.eqb c comma || Ascii.eqb c quotechar || Ascii.eqb c CR || Ascii.eqb c LF.

Fixpoint has_special (s : string) : bool :=
  match s with
  | EmptyString => false
  | String c s' => special c || has_special s'
  end.

Fixpoint double_quotes (s : string) : string :=
  match s with
  | EmptyString => EmptyString
  | String c s' =>
      if Ascii.eqb c quotechar
      then String c (String c (double_quotes s'))
      else String c (double_quotes s')
  end.

Definition write_field (s : string) : string :=
  if has_special s
  then String quotechar (double_quotes s +:+ String quotechar EmptyString)
  else s.

Fixpoint join (sep : string) (l : list string) : string :=
  match l with
  | [] => EmptyString
  | [s] => s
  | s :: l' => s +:+ sep +:+ join sep l'
  end.

(** [writer.writerow(row)]: a row whose text would be empty, one empty
    field, is written as an empty quoted field. *)
Definition writerow (row : list cell) : string :=
  let text := join (String comma EmptyString) (map (fun c => write_field (cell_text c)) row) in
  let text :=
    match row, text with
    | _ :: _, EmptyString => String quotechar (String quotechar EmptyString)
    | _, _ => text
    end in
  text +:+ lineterminator.

(** [writer.writerows(rows)] *)
Definition writerows (rows : list (list cell)) : string :=
  fold_right (fun row acc => writerow row +:+ acc) EmptyString rows.

(** [s.split(sep)] for a separator of one character. *)
Fixpoint split_go (sep : ascii) (s : string) (cur : string) : list string :=
  match s with
  | EmptyString => [cur]
  | String c s' =>
      if Ascii.eqb c sep
      then cur :: split_go sep s' EmptyString
      else split_go sep s' (cur +:+ String c EmptyString)
  end.

Definition split (sep : ascii) (s : string) : list string :=
  split_go sep s EmptyString.

End Csv.

(** The reading of the clock, [datetime.datetime.utcnow()]. *)
Record datetime : Type := {
  year : Z;
  month : Z;
  day : Z;
  hour : Z;
  minute : Z;
  second : Z
}.

(** The ranges of the fields of a [datetime] whose year has four digits,
    as every reading of the clock from the year 1000 on has. *)
Definition valid_datetime (t : datetime) : Prop :=
  1000 <= year t <= 9999 /\ 1 <= month t <= 12 /\ 1 <= day t <= 31 /\
  0 <= hour t <= 23 /\ 0 <= minute t <= 59 /\ 0 <= second t <= 59.

(** A decimal number padded with zeros on the left to [width] digits. *)
Definition zero_pad (width : nat) (n : Z) : string :=
  let digits := Csv.str_of_Z n in
  string_of_list_ascii
    (repeat (ascii_of_nat 48) (width - String.length digits))
  +:+ digits.

(** [t.strftime('%Y%m%dT%H%M%SZ')]: the year in decimal, as the C
    library writes it, and the other fields on two digits. *)
Definition strftime_compact (t : datetime) : string :=
  Csv.str_of_Z (year t) +:+ zero_pad 2 (month t) +:+ zero_pad 2 (day t) +:+ "T"
  +:+ zero_pad 2 (hour t) +:+ zero_pad 2 (minute t) +:+ zero_pad 2 (second t)
  +:+ "Z".

(** What [send_file] is given. *)
Record FileResponse : Type := {
  body : string;
  mimetype : string;
  as_attachment : bool;
  download_name : string
}.

Definition rows : list (list Csv.cell) :=
  [ [Csv.CStr "Metric"; Csv.CStr "Conventional"; Csv.CStr "Circular"];
    [Csv.CStr "CO2 Emissions"; Csv.CInt 850; Csv.CInt 320];
    [Csv.CStr "Energy Use"; Csv.CInt 1200; Csv.CInt 680];
    [Csv.CStr "Water Use"; Csv.CInt 400; Csv.CInt 180];
    [Csv.CStr "Waste Gen."; Csv.CInt 200; Csv.CInt 45] ].

Definition export_report_csv (utcnow : datetime) : FileResponse :=
  let string_buffer := Csv.writerows rows in
  let filename :=
    "circularmetals_report_" +:+ strftime_compact utcnow +:+ ".csv" in
  {| body := string_buffer;
     mimetype := "text/csv";
     as_attachment := true;
     download_name := filename |}.

(** The table of the report as text: the header, then one row for each
    entry of the environmental impact dataset. *)
Definition report_table : list (list string) :=
  [ "Metric"; "Conventional"; "Circular" ]%string
  :: map (fun d => [ name d; Csv.str_of_Z (conventional d);
                     Csv.str_of_Z (circular d) ])
         get_environmental_impact.

(** The pattern [circularmetals_report_\d{8}T\d{6}Z\.csv]: a sequence of
    one-character items, each a literal or a decimal digit. *)
Inductive pattern_item : Type :=
| Exactly (c : ascii)
| Digit.

Definition item_matches (p : pattern_item) (c : ascii) : bool :=
  match p with
  | Exactly a => Ascii.eqb a c
  | Digit => (Nat.leb 48 (nat_of_ascii c) && Nat.leb (nat_of_ascii c) 57)%bool
  end.

Fixpoint fullmatch (p : list pattern_item) (s : string) : bool :=
  match p, s with
  | [], EmptyString => true
  | i :: p', String c s' => item_matches i c && fullmatch p' s'
  | _, _ => false
  end.

Definition literal (s : string) : list pattern_item :=
  map Exactly (list_ascii_of_string s).

Definition filename_pattern : list pattern_item :=
  literal "circularmetals_report_" ++ repeat Digit 8 ++ literal "T"
  ++ repeat Digit 6 ++ literal "Z" ++ literal ".csv".

(** ** What the handler reads, and its scores on percentages *)

(** The keys whose values [run_assessment] reads; of [endOfLife] it only
    tests the presence. *)
Definition read_keys : list string :=
  [ "recycledContent"; "rawMaterial"; "energyUse"; "transport";
    "material"; "production" ]%string.

(** A key whose value is neither empty nor a text, so that
    [process_data.get(key, "") or dflt] has no method [lower]. *)
Definition non_text_value (process_data : gmap string json) (key : string) : Prop :=
  exists v, process_data !! key = Some v /\ truthy v = true /\
            forall s, v <> JStr s.

(** The two scores for recycledContent [a] and rawMaterial [b] given as
    whole numbers, with or without the two bonuses; -1 stands for a value
    that cannot be rounded. *)
Definition percent_circularity (a b : Z) (energy_bonus transport_bonus : bool) : Z :=
  match Float64.py_round
          (circularity_value (Float64.of_Z a) (Float64.of_Z b)
             (if energy_bonus then "low" else "medium")
             (if transport_bonus then "rail" else "road")) with
  | Ok n => clamp n
  | Raise _ => -1
  end.

Definition percent_environmental (a b : Z) : Z :=
  match Float64.py_int
          (environmental_value (Float64.of_Z a) (Float64.of_Z b)) with
  | Ok n => clamp (60 + n)
  | Raise _ => -1
  end.

(** The whole numbers from 0 to 100. *)
Definition percents : list Z := map Z.of_nat (seq 0 101).

Definition for_all_percents (P : Z -> Z -> bool) : bool :=
  forallb (fun a => forallb (fun b => P a b) percents) percents.

(** The scores for [a] and [b]: the circularity without bonus, with the
    transport bonus, with the energy bonus and with both, and the
    environmental score; and the table of them for the whole percentages,
    computed once. *)
Definition percent_row (a b : Z) : Z * Z * Z * Z * Z :=
  (percent_circularity a b false false, percent_circularity a b false true,
   percent_circularity a b true false, percent_circularity a b true true,
   percent_environmental a b).

Definition percent_table : list (list (Z * Z * Z * Z * Z)) :=
  Eval vm_compute in map (fun a => map (percent_row a) percents) percents.

Definition table_row (a b : Z) : Z * Z * Z * Z * Z :=
  nth (Z.to_nat b) (nth (Z.to_nat a) percent_table []) (0, 0, 0, 0, 0).

Definition row_eqb (r s : Z * Z * Z * Z * Z) : bool :=
  let '(r1, r2, r3, r4, r5) := r in
  let '(s1, s2, s3, s4, s5) := s in
  (r1 =? s1) && (r2 =? s2) && (r3 =? s3) && (r4 =? s4) && (r5 =? s5).

(** The circularity of a row for the given bonuses, and its environmental
    score. *)
Definition row_circularity (r : Z * Z * Z * Z * Z) (e t : bool) : Z :=
  let '(c00, c01, c10, c11, _) := r in
  if e then (if t then c11 else c10) else (if t then c01 else c00).

Definition row_environmental (r : Z * Z * Z * Z * Z) : Z := snd r.

Definition both (P : bool -> bool) : bool := P true && P false.

(** A mapping with the four fields the scores depend on. *)
Definition percent_input (a b : Z) (energy transport : string)
  : gmap string json :=
  <[ "recycledContent" := JInt a ]>
  (<[ "rawMaterial" := JInt b ]>
  (<[ "energyUse" := JStr energy ]>
  (<[ "transport" := JStr transport ]> ∅))).

(** ** The other routes *)

(** [api_index]: the manifest and the status. *)
Definition api_index : (string * list string) * Z :=
  (("API root",
    [ "GET /api/health";
      "POST /api/assessment";
      "GET /api/environmental-impact";
      "GET /api/circularity-indicators";
      "GET /api/flow-data";
      "GET /api/pie-data";
      "POST /api/reports/export" ])%string, 200).

(** The rules the decorators of [create_app] register, in their order. *)
Inductive http_method : Set := GET | POST.

Definition method_name (m : http_method) : string :=
  match m with
  | GET => "GET"
  | POST => "POST"
  end.

Definition url_rules : list (http_method * string) :=
  [ (GET, "/api"); (GET, "/api/health"); (POST, "/api/assessment");
    (GET, "/api/environmental-impact"); (GET, "/api/circularity-indicators");
    (GET, "/api/flow-data"); (GET, "/api/pie-data");
    (POST, "/api/reports/export"); (GET, "/") ]%string.

(** [get_pie_data] *)
Record PieSlice : Type := {
  slice_name : string;
  slice_value : Z;
  slice_color : string
}.

Definition get_pie_data : list PieSlice * Z :=
  ([ {| slice_name := "Recycled"; slice_value := 45; slice_color := "#10b981" |};
     {| slice_name := "Virgin"; slice_value := 35; slice_color := "#6366f1" |};
     {| slice_name := "Recovered"; slice_value := 20; slice_color := "#f59e0b" |} ],
   200).

(** [health]: the clock is read to the microsecond. *)
Record instant : Type := {
  at_second : datetime;
  microsecond : Z
}.

(** The ranges of the fields of a [datetime] with its microseconds. *)
Definition valid_instant (t : instant) : Prop :=
  1 <= year (at_second t) <= 9999 /\ 1 <= month (at_second t) <= 12 /\
  1 <= day (at_second t) <= 31 /\ 0 <= hour (at_second t) <= 23 /\
  0 <= minute (at_second t) <= 59 /\ 0 <= second (at_second t) <= 59 /\
  0 <= microsecond t <= 999999.

(** [t.isoformat()] of a [datetime] without time zone: the date and the
    time with every field padded with zeros, and the microseconds on six
    digits after a point unless they are zero. *)
Definition isoformat (t : instant) : string :=
  zero_pad 4 (year (at_second t)) +:+ "-" +:+
  zero_pad 2 (month (at_second t)) +:+ "-" +:+
  zero_pad 2 (day (at_second t)) +:+ "T" +:+
  zero_pad 2 (hour (at_second t)) +:+ ":" +:+
  zero_pad 2 (minute (at_second t)) +:+ ":" +:+
  zero_pad 2 (second (at_second t)) +:+
  (if microsecond t =? 0 then EmptyString
   else "." +:+ zero_pad 6 (microsecond t)).

Record HealthBody : Type := {
  status : string;
  timestamp : string
}.

Definition health (utcnow : instant) : HealthBody * Z :=
  ({| status := "ok"; timestamp := isoformat utcnow +:+ "Z" |}, 200).

(** The date and time to the second, as a pattern. *)
Definition seconds_pattern : list pattern_item :=
  repeat Digit 4 ++ literal "-" ++ repeat Digit 2 ++ literal "-"
  ++ repeat Digit 2 ++ literal "T" ++ repeat Digit 2 ++ literal ":"
  ++ repeat Digit 2 ++ literal ":" ++ repeat Digit 2.

(** Reading a timestamp back: the number written by the decimal digits of
    a text, -1 for a text that is no such number, and the number written
    at [s[start : start + len]]. *)
Definition decimal_value (s : string) : Z :=
  match NilEmpty.uint_of_string s with
  | Some u => Z.of_N (N.of_uint u)
  | None => -1
  end.

Definition field_at (s : string) (start len : nat) : Z :=
  decimal_value (substring start len s).

(** * Properties *)

(** ** The arithmetic and string helpers on examples *)

Example lit_0_3_nearest :
  Float64.lit_0_3 = Float64.div (Float64.of_Z 3) (Float64.of_Z 10).
Proof. vm_compute. reflexivity. Qed.

Example lit_0_2_nearest :
  Float64.lit_0_2 = Float64.div (Float64.of_Z 2) (Float64.of_Z 10).
Proof. vm_compute. reflexivity. Qed.

Example lit_0_1_nearest :
  Float64.lit_0_1 = Float64.div (Float64.of_Z 1) (Float64.of_Z 10).
Proof. vm_compute. reflexivity. Qed.

(** 54.5 is a tie and goes to 54; 51.5 goes to 52; -0.5 goes to 0. *)
Example py_round_ties :
  Float64.py_round (S754_finite false 109 (-1)) = Ok 54 /\
  Float64.py_round (S754_finite false 103 (-1)) = Ok 52 /\
  Float64.py_round (S754_finite true 1 (-1)) = Ok 0 /\
  Float64.py_round (S754_finite false 5 (-1)) = Ok 2.
Proof. vm_compute. repeat split. Qed.

Example py_int_truncates :
  Float64.py_int (S754_finite true 1 (-1)) = Ok 0 /\
  Float64.floor (S754_finite true 1 (-1)) = Ok (-1) /\
  Float64.py_int (S754_finite false 7 (-1)) = Ok 3 /\
  Float64.py_int (S754_finite true 7 (-1)) = Ok (-3).
Proof. vm_compute. repeat split. Qed.

Example lower_examples :
  lower "ReNewable" = "renewable"%string /\ lower "SEA" = "sea"%string /\
  in_pair (lower "Rail") "rail" "sea" = true /\
  in_pair (lower "road") "rail" "sea" = false.
Proof. vm_compute. repeat split. Qed.

(** A check on every integer below [k], by running it. *)
Lemma forallb_range (P : Z -> bool) (k : nat) :
  forallb P (map Z.of_nat (seq 0 k)) = true ->
  forall n, 0 <= n < Z.of_nat k -> P n = true.
Proof.
  intros H n Hn. rewrite forallb_forall in H. apply H.
  apply in_map_iff. exists (Z.to_nat n). split; [lia|]. apply in_seq. lia.
Qed.

(** ** The scores of percentages are finite *)

Lemma circularity_value_cases recycled raw_material energy_lower transport_lower :
  circularity_value recycled raw_material energy_lower transport_lower =
  circularity_value recycled raw_material
    (if in_pair energy_lower "low" "renewable" then "low" else "medium")
    (if in_pair transport_lower "rail" "sea" then "rail" else "road").
Proof.
  unfold circularity_value.
  by destruct (in_pair energy_lower _ _), (in_pair transport_lower _ _).
Qed.

Lemma percentages_finite a b energy_lower transport_lower :
  0 <= a <= 100 -> 0 <= b <= 100 ->
  Float64.is_finite
    (circularity_value (Float64.of_Z a) (Float64.of_Z b)
       energy_lower transport_lower) = true /\
  Float64.is_finite
    (environmental_value (Float64.of_Z a) (Float64.of_Z b)) = true.
Proof.
  intros Ha Hb. rewrite circularity_value_cases.
  set (check := fun a b : Z =>
    forallb (fun e => forallb (fun t =>
        Float64.is_finite
          (circularity_value (Float64.of_Z a) (Float64.of_Z b) e t))
      ["rail"; "road"]%string) ["low"; "medium"]%string
    && Float64.is_finite (environmental_value (Float64.of_Z a) (Float64.of_Z b))).
  assert (Hall : check a b = true).
  { apply (forallb_range (fun b => check a b) 101); [|lia].
    apply (forallb_range
             (fun a => forallb (fun b => check a b) (map Z.of_nat (seq 0 101)))
             101); [vm_compute; reflexivity | lia]. }
  unfold check in Hall. cbn [forallb] in Hall. rewrite !andb_true_r in Hall.
  apply andb_true_iff in Hall as [Hall Henv].
  apply andb_true_iff in Hall as [Hlow Hmedium].
  apply andb_true_iff in Hlow as [? ?].
  apply andb_true_iff in Hmedium as [? ?].
  split; [|exact Henv].
  by destruct (in_pair energy_lower _ _), (in_pair transport_lower _ _).
Qed.

(** ** The two conversions of a double to an integer *)

(** [int(x)] drops the fraction: on the magnitude [m * 2^e] with [e < 0]
    it is the quotient of [m] by [2^(-e)]. *)
Lemma truncate_bounds m e :
  e < 0 ->
  Float64.truncate m e * 2 ^ (- e) <= Z.pos m
    < (Float64.truncate m e + 1) * 2 ^ (- e).
Proof.
  intros He. unfold Float64.truncate.
  destruct (Z.leb_spec 0 e) as [|_]; [lia|].
  assert (Hd : 0 < 2 ^ (- e)) by (apply Z.pow_pos_nonneg; lia).
  pose proof (Z.div_mod (Z.pos m) (2 ^ (- e)) ltac:(lia)).
  pose proof (Z.mod_pos_bound (Z.pos m) (2 ^ (- e)) Hd). nia.
Qed.

(** [round(x)] is a nearest integer: it is at most one half away. *)
Lemma round_half_even_nearest m e :
  e < 0 ->
  Z.abs (2 * (Z.pos m - Float64.round_half_even m e * 2 ^ (- e))) <= 2 ^ (- e).
Proof.
  intros He. unfold Float64.round_half_even.
  destruct (Z.leb_spec 0 e) as [|_]; [lia|].
  assert (Hd : 0 < 2 ^ (- e)) by (apply Z.pow_pos_nonneg; lia).
  pose proof (Z.div_mod (Z.pos m) (2 ^ (- e)) ltac:(lia)) as Hdm.
  pose proof (Z.mod_pos_bound (Z.pos m) (2 ^ (- e)) Hd) as Hr.
  set (d := 2 ^ (- e)) in *. set (q := Z.pos m / d) in *.
  set (r := Z.pos m mod d) in *. cbv zeta.
  destruct (Z.compare_spec (2 * r) d); [destruct (Z.even q)| |]; nia.
Qed.

(** A tie goes to the even neighbour. *)
Lemma round_half_even_tie m e :
  e < 0 -> 2 * (Z.pos m mod 2 ^ (- e)) = 2 ^ (- e) ->
  Z.even (Float64.round_half_even m e) = true.
Proof.
  intros He Htie. unfold Float64.round_half_even.
  destruct (Z.leb_spec 0 e) as [|_]; [lia|]. cbv zeta.
  rewrite Htie, Z.compare_refl.
  destruct (Z.even (Z.pos m / 2 ^ (- e))) eqn:Hq; [exact Hq|].
  rewrite Z.even_add, Hq. reflexivity.
Qed.

(** The cast and the floor agree on a double that is not negative; on a
    negative one the floor is the cast or one less. *)
Lemma floor_py_int_nonneg m e :
  Float64.floor (S754_finite false m e) = Float64.py_int (S754_finite false m e).
Proof. reflexivity. Qed.

Lemma floor_le_py_int x n k :
  Float64.py_int x = Ok n -> Float64.floor x = Ok k -> k <= n <= k + 1.
Proof.
  destruct x as [s| s| |s m e]; simpl; try discriminate.
  - intros [= <-] [= <-]. lia.
  - destruct s; simpl; intros [= <-] [= <-]; [|lia].
    unfold Float64.truncate. destruct (Z.leb_spec 0 e) as [|He]; [lia|].
    assert (Hd : 0 < 2 ^ (- e)) by (apply Z.pow_pos_nonneg; lia).
    set (d := 2 ^ (- e)) in *.
    pose proof (Z.div_mod (Z.pos m) d ltac:(lia)).
    pose proof (Z.mod_pos_bound (Z.pos m) d Hd).
    pose proof (Z.div_mod (Z.pos m + d - 1) d ltac:(lia)).
    pose proof (Z.mod_pos_bound (Z.pos m + d - 1) d Hd).
    nia.
Qed.

Section HandlerFacts.

Variable float_of_str : string -> option spec_float.
Variable rng : Type.
Variable seed : seed_key -> rng.
Variable reseed : rng -> rng.
Variable randbelow : rng -> nat -> nat * rng.

Abbreviation run := (run_assessment float_of_str rng seed reseed randbelow).
Abbreviation numeric := (numeric_field float_of_str).
Abbreviation seed_gen := (random_seed rng seed reseed).
Abbreviation shuffle := (random_shuffle rng randbelow).
Abbreviation shuffle_at := (shuffle_from rng randbelow).

(** *** The monad *)

Lemma bind_Ok {A B : Type} (m : M rng A) (k : A -> M rng B) g b g' :
  bind rng m k g = (Ok b, g') <->
  exists a g1, m g = (Ok a, g1) /\ k a g1 = (Ok b, g').
Proof.
  unfold bind. split.
  - destruct (m g) as [[a|e] g1]; [eauto | discriminate].
  - intros (a & g1 & -> & Hk). exact Hk.
Qed.

Lemma bind_step {A B : Type} (m : M rng A) (k : A -> M rng B) g a g1 :
  m g = (Ok a, g1) -> bind rng m k g = k a g1.
Proof. unfold bind. by intros ->. Qed.

Lemma bind_Raise {A B : Type} (m : M rng A) (k : A -> M rng B) g e g1 :
  m g = (Raise e, g1) -> bind rng m k g = (Raise e, g1).
Proof. unfold bind. by intros ->. Qed.

Lemma bind_lift_Ok {A B : Type} (r : result A) (k : A -> M rng B) g b g' :
  bind rng (lift rng r) k g = (Ok b, g') <->
  exists a, r = Ok a /\ k a g = (Ok b, g').
Proof.
  unfold bind, lift. split.
  - destruct r as [a|e]; [eauto | discriminate].
  - intros (a & -> & Hk). exact Hk.
Qed.

Lemma bind_lift_Raise {A B : Type} (r : result A) (k : A -> M rng B) g e :
  r = Raise e -> bind rng (lift rng r) k g = (Raise e, g).
Proof. intros ->. reflexivity. Qed.

Lemma bind_lift_step {A B : Type} (r : result A) (k : A -> M rng B) g a :
  r = Ok a -> bind rng (lift rng r) k g = k a g.
Proof. intros ->. reflexivity. Qed.

(** *** [random.shuffle] *)

Lemma swap_Permutation {A : Type} (x x' : list A) i j :
  swap x i j = Ok x' -> x' ≡ₚ x.
Proof.
  unfold swap. destruct (x !! j) as [xj|] eqn:Hj; [|discriminate].
  destruct (x !! i) as [xi|] eqn:Hi; [|discriminate].
  intros [= <-]. by apply Permutation_insert_swap.
Qed.

Lemma swap_returns {A : Type} (x : list A) i j :
  (i < length x)%nat -> (j < length x)%nat -> exists x', swap x i j = Ok x'.
Proof.
  intros Hi Hj. unfold swap.
  destruct (lookup_lt_is_Some_2 x j Hj) as [xj ->].
  destruct (lookup_lt_is_Some_2 x i Hi) as [xi ->]. eauto.
Qed.

Lemma shuffle_from_S {A : Type} i (x : list A) g :
  shuffle_at (S i) x g =
  match swap x (S i) (fst (randbelow g (S i + 1))) with
  | Ok x' => shuffle_at i x' (snd (randbelow g (S i + 1)))
  | Raise e => (Raise e, snd (randbelow g (S i + 1)))
  end.
Proof. cbn [shuffle_from]. by destruct (randbelow g (S i + 1)). Qed.

Lemma shuffle_from_Permutation {A : Type} i (x y : list A) g g' :
  shuffle_at i x g = (Ok y, g') -> y ≡ₚ x.
Proof.
  revert x g. induction i as [|i IH]; intros x g.
  - simpl. unfold ret. by intros [= <- _].
  - rewrite shuffle_from_S.
    destruct (randbelow g (S i + 1)) as [j g1]; simpl.
    destruct (swap x (S i) j) as [x'|e] eqn:Hs; [|discriminate].
    intros Hrec. apply IH in Hrec. rewrite Hrec.
    by eapply swap_Permutation.
Qed.

Lemma random_shuffle_Permutation {A : Type} (x y : list A) g g' :
  shuffle x g = (Ok y, g') -> y ≡ₚ x.
Proof. apply shuffle_from_Permutation. Qed.

(** *** What a returned result is made of *)

Lemma run_assessment_Ok process_data g r g' :
  run process_data g = (Ok r, g') <->
  exists recycled raw_material energy_lower transport_lower
         rounded truncated seed_arg g1 shuffled,
    numeric process_data "recycledContent" = Ok recycled /\
    numeric process_data "rawMaterial" = Ok raw_material /\
    call_lower (text_field process_data "energyUse" "medium") = Ok energy_lower /\
    call_lower (text_field process_data "transport" "road") = Ok transport_lower /\
    Float64.py_round
      (circularity_value recycled raw_material energy_lower transport_lower)
      = Ok rounded /\
    Float64.py_int (environmental_value recycled raw_material) = Ok truncated /\
    py_add (seed_part process_data "material")
           (seed_part process_data "production") = Ok seed_arg /\
    seed_gen seed_arg g = (Ok tt, g1) /\
    shuffle catalog g1 = (Ok shuffled, g') /\
    r = {| circularityScore := clamp rounded;
           environmentalScore := clamp (60 + truncated);
           recommendations := take 4 shuffled;
           missingParams :=
             Z.max 0 (Z.of_nat (length
               (filter (fun f => process_data !! f = None) expected_fields)));
           debug_missingFields :=
             filter (fun f => process_data !! f = None) expected_fields |}.
Proof.
  unfold run_assessment, circularity_value, environmental_value.
  split.
  - intros H.
    apply bind_lift_Ok in H as (recycled & H1 & H).
    apply bind_lift_Ok in H as (raw_material & H2 & H).
    apply bind_lift_Ok in H as (energy_lower & H3 & H).
    apply bind_lift_Ok in H as (transport_lower & H4 & H).
    apply bind_lift_Ok in H as (rounded & H5 & H).
    apply bind_lift_Ok in H as (truncated & H6 & H).
    apply bind_lift_Ok in H as (seed_arg & H7 & H).
    apply bind_Ok in H as ([] & g1 & H8 & H).
    apply bind_Ok in H as (shuffled & g2 & H9 & H).
    unfold ret in H. injection H as <- <-.
    exists recycled, raw_material, energy_lower, transport_lower,
           rounded, truncated, seed_arg, g1, shuffled.
    repeat split; assumption.
  - intros (recycled & raw_material & energy_lower & transport_lower &
            rounded & truncated & seed_arg & g1 & shuffled &
            H1 & H2 & H3 & H4 & H5 & H6 & H7 & H8 & H9 & ->).
    rewrite (bind_lift_step _ _ _ _ H1), (bind_lift_step _ _ _ _ H2),
            (bind_lift_step _ _ _ _ H3), (bind_lift_step _ _ _ _ H4),
            (bind_lift_step _ _ _ _ H5), (bind_lift_step _ _ _ _ H6),
            (bind_lift_step _ _ _ _ H7).
    apply bind_Ok. exists tt, g1. split; [exact H8|].
    apply bind_Ok. exists shuffled, g'. split; [exact H9|]. reflexivity.
Qed.

(** The shuffled catalog has its four entries, so the slice [[:4]]
    keeps all of it. *)
Lemma take_4_shuffled shuffled g g' :
  shuffle catalog g = (Ok shuffled, g') -> take 4 shuffled = shuffled.
Proof.
  intros H%random_shuffle_Permutation%Permutation_length.
  apply take_ge. rewrite H. simpl. lia.
Qed.

Lemma clamp_bounds n : 0 <= clamp n <= 100.
Proof. unfold clamp. lia. Qed.

(** *** The route *)

(** Without a body, or with an empty one, the handler runs on the empty
    mapping; with a mapping under [processData] it runs on that mapping. *)
Lemma post_api_assessment_no_body g :
  post_api_assessment float_of_str rng seed reseed randbelow None g =
  bind rng (run ∅) (fun result => ret rng (result, 200)) g /\
  post_api_assessment float_of_str rng seed reseed randbelow (Some (JObj [])) g =
  bind rng (run ∅) (fun result => ret rng (result, 200)) g.
Proof. split; reflexivity. Qed.

Lemma post_api_assessment_mapping entries g :
  post_api_assessment float_of_str rng seed reseed randbelow
    (Some (JObj [("processData"%string, JObj entries)])) g =
  bind rng (run (dict_of entries)) (fun result => ret rng (result, 200)) g.
Proof. reflexivity. Qed.

(** *** The helpers of the score *)

Lemma call_lower_Ok v s :
  call_lower v = Ok s <-> exists t, v = JStr t /\ s = lower t.
Proof.
  split.
  - destruct v; simpl; try discriminate. intros [= <-]. eauto.
  - intros (t & -> & ->). reflexivity.
Qed.

Lemma py_round_Ok x n : Float64.py_round x = Ok n -> Float64.is_finite x = true.
Proof. destruct x; simpl; done. Qed.

Lemma py_round_finite x :
  Float64.is_finite x = true -> exists n, Float64.py_round x = Ok n.
Proof. destruct x; simpl; try done; eauto. Qed.

Lemma py_int_finite x :
  Float64.is_finite x = true -> exists n, Float64.py_int x = Ok n.
Proof. destruct x; simpl; try done; eauto. Qed.

Lemma py_int_Ok x n : Float64.py_int x = Ok n -> Float64.is_finite x = true.
Proof. by destruct x. Qed.

(** The membership test of the source on the lowered text is the
    comparison that ignores case. *)
Lemma circularity_formula_value recycled raw_material energy transport :
  circularity_formula recycled raw_material energy transport =
  rbind (Float64.py_round
           (circularity_value recycled raw_material (lower energy) (lower transport)))
        (fun n => Ok (clamp n)).
Proof. reflexivity. Qed.

Lemma environmental_formula_value recycled raw_material :
  environmental_formula Float64.py_int recycled raw_material =
  rbind (Float64.py_int (environmental_value recycled raw_material))
        (fun n => Ok (clamp (60 + n))).
Proof. reflexivity. Qed.

Lemma numeric_field_value process_data key f :
  numeric process_data key = Ok f <->
  field_value float_of_str (S754_zero false) process_data key f.
Proof.
  unfold numeric_field, field_value, dict_get, py_or.
  destruct (process_data !! key) as [v|]; simpl.
  - destruct (truthy v); [done|]. simpl. split; [by intros [= <-] | by intros ->].
  - split; [by intros [= <-] | by intros ->].
Qed.

(** *** Both scores lie in 0..100 *)

(** C5. Whenever the assessment returns, that is on every input on which
    it does not fail, the circularity score and the environmental score
    are integers between 0 and 100. *)
Theorem C5_scores_in_range process_data g r g' :
  run process_data g = (Ok r, g') ->
  0 <= circularityScore r <= 100 /\ 0 <= environmentalScore r <= 100.
Proof.
  intros H. apply run_assessment_Ok in H
    as (recycled & raw_material & el & tl & rounded & truncated & seed_arg &
        g1 & shuffled & _ & _ & _ & _ & _ & _ & _ & _ & _ & ->).
  simpl. split; apply clamp_bounds.
Qed.

(** *** The numeric fields *)

(** C3, as the code has it. Whenever the assessment returns, its two
    scores are the formulas' values on two doubles [recycled] and
    [raw_material] that stand for the fields recycledContent and
    rawMaterial: 50 for a key that is absent, 0 for a key whose value is
    empty (the empty string, null, false, zero, an empty list or mapping),
    and the value converted by [float] otherwise. *)
Theorem C3_numeric_fields process_data g r g' :
  run process_data g = (Ok r, g') ->
  exists recycled raw_material energy transport,
    field_value float_of_str (S754_zero false) process_data "recycledContent" recycled /\
    field_value float_of_str (S754_zero false) process_data "rawMaterial" raw_material /\
    text_field process_data "energyUse" "medium" = JStr energy /\
    text_field process_data "transport" "road" = JStr transport /\
    circularity_formula recycled raw_material energy transport
      = Ok (circularityScore r) /\
    environmental_formula Float64.py_int recycled raw_material
      = Ok (environmentalScore r).
Proof.
  intros H. apply run_assessment_Ok in H
    as (recycled & raw_material & el & tl & rounded & truncated & seed_arg &
        g1 & shuffled & H1 & H2 & H3 & H4 & H5 & H6 & _ & _ & _ & ->).
  apply call_lower_Ok in H3 as (energy & H3 & ->).
  apply call_lower_Ok in H4 as (transport & H4 & ->).
  exists recycled, raw_material, energy, transport.
  rewrite <- !numeric_field_value, circularity_formula_value,
    environmental_formula_value, H5, H6. done.
Qed.

(** *** The missing fields *)

Lemma expected_fields_NoDup : NoDup expected_fields.
Proof. apply (bool_decide_unpack _). vm_compute. exact I. Qed.

Lemma missing_fields_elem (process_data : gmap string json) k :
  k ∈ filter (fun f => process_data !! f = None) expected_fields <->
  k ∈ expected_fields /\ process_data !! k = None.
Proof. rewrite list_elem_of_filter. tauto. Qed.

Lemma missing_fields_size (process_data : gmap string json) :
  length (filter (fun f => process_data !! f = None) expected_fields) =
  size (list_to_set expected_fields ∖ dom process_data : gset string).
Proof.
  rewrite <- (size_list_to_set (C := gset string))
    by apply NoDup_filter, expected_fields_NoDup.
  f_equal. apply set_eq. intros k.
  rewrite elem_of_list_to_set, missing_fields_elem, elem_of_difference,
    elem_of_list_to_set, not_elem_of_dom. done.
Qed.

(** C9. Whenever the assessment returns, the list debug.missingFields
    is the list material, production, rawMaterial, recycledContent,
    energyUse, transport, endOfLife with the keys that are present in the
    mapping struck out: it holds exactly the fields of that list that are
    absent, in the order of that list; and missingParams is its length.
    With rawMaterial and transport alone in the mapping the list is
    material, production, recycledContent, energyUse, endOfLife. *)
Theorem C9_missing_fields_order process_data g r g' :
  run process_data g = (Ok r, g') ->
  debug_missingFields r `sublist_of`
    [ "material"; "production"; "rawMaterial"; "recycledContent";
      "energyUse"; "transport"; "endOfLife" ]%string /\
  (forall k, k ∈ debug_missingFields r <->
             k ∈ [ "material"; "production"; "rawMaterial"; "recycledContent";
                   "energyUse"; "transport"; "endOfLife" ]%string /\
             process_data !! k = None) /\
  missingParams r = Z.of_nat (length (debug_missingFields r)) /\
  (dom process_data = {[ "rawMaterial"; "transport" ]}%string ->
   debug_missingFields r =
     [ "material"; "production"; "recycledContent"; "energyUse";
       "endOfLife" ]%string).
Proof.
  intros H. apply run_assessment_Ok in H
    as (recycled & raw_material & el & tl & rounded & truncated & seed_arg &
        g1 & shuffled & _ & _ & _ & _ & _ & _ & _ & _ & _ & ->).
  simpl.
  change [ "material"; "production"; "rawMaterial"; "recycledContent";
           "energyUse"; "transport"; "endOfLife" ]%string with expected_fields.
  split; [apply sublist_filter|]. split; [apply missing_fields_elem|].
  split; [lia|].
  intros Hdom.
  assert (Hin : forall k, process_data !! k = None <->
                          k <> "rawMaterial"%string /\ k <> "transport"%string).
  { intros k. rewrite <- not_elem_of_dom, Hdom.
    rewrite elem_of_union, !elem_of_singleton. tauto. }
  unfold expected_fields.
  repeat (rewrite filter_cons; destruct (decide _) as [Hk | Hk];
          rewrite Hin in Hk;
          [try (exfalso; destruct Hk; congruence)
          |try (exfalso; apply Hk; split; discriminate)];
          clear Hk).
  reflexivity.
Qed.

(** *** The recommendations *)

Lemma py_or_empty_text s : py_or (JStr s) (JStr "") = JStr s.
Proof. by destruct s. Qed.

Lemma py_add_or_empty m p :
  py_add (py_or (JStr m) (JStr "")) (py_or (JStr p) (JStr "")) = Ok (JStr (m +:+ p)).
Proof. by rewrite !py_or_empty_text. Qed.

Lemma seed_part_field_or_empty process_data key :
  seed_part process_data key = py_or (field_or_empty process_data key) (JStr "").
Proof.
  unfold seed_part, field_or_empty, dict_get_none, dict_get.
  by destruct (process_data !! key).
Qed.

(** [random.seed] on a text that can be encoded forgets the state it
    finds; on another text it raises and leaves the state. *)
Lemma random_seed_text s g :
  has_surrogate s = false -> seed_gen (JStr s) g = (Ok tt, seed (SeedStr s)).
Proof. intros H. unfold random_seed, str_encode. by rewrite H. Qed.

Lemma random_seed_text_Ok s g u g1 :
  seed_gen (JStr s) g = (Ok u, g1) ->
  has_surrogate s = false /\ g1 = seed (SeedStr s).
Proof.
  unfold random_seed, str_encode.
  destruct (has_surrogate s); [discriminate|]. by intros [= _ <-].
Qed.

Lemma random_seed_accepted a g :
  (exists g1, seed_gen a g = (Ok tt, g1)) <-> accepted_seed a = true.
Proof.
  unfold random_seed, str_encode.
  destruct a as [| | |f|s| |]; simpl;
    try destruct f; try destruct (has_surrogate s); simpl;
    (split; [first [done | by intros [? [=]]]
            |first [done | by intros _; eexists]]).
Qed.

Lemma random_seed_ValueError a g :
  fst (seed_gen a g) = Raise ValueError <->
  exists s, a = JStr s /\ has_surrogate s = true.
Proof.
  unfold random_seed, str_encode.
  destruct a as [| | |f|s| |]; simpl;
    try destruct f; try destruct (has_surrogate s) eqn:Hs; simpl;
    (split; [first [discriminate | by intros _; exists s]
            |intros (t & Ht & Hsur); congruence]).
Qed.

Lemma random_seed_Raise a g e g1 :
  seed_gen a g = (Raise e, g1) -> g1 = g /\ (e = TypeError \/ e = ValueError).
Proof.
  unfold random_seed, str_encode.
  destruct a as [| | |f|s| |]; simpl;
    try destruct f; try destruct (has_surrogate s); simpl;
    first [discriminate | intros [= <- <-]; auto].
Qed.

Lemma py_add_text a b s :
  py_add a b = Ok (JStr s) <->
  exists m p, a = JStr m /\ b = JStr p /\ s = (m +:+ p)%string.
Proof.
  split.
  - destruct a, b; simpl; try discriminate;
      unfold float_of_int; try (by destruct (Float64.is_finite _)).
    intros [= <-]. eauto.
  - intros (m & p & -> & -> & ->). reflexivity.
Qed.

(** The recommendations of a run whose seed is a text are the shuffle
    from the state that text installs. *)
Lemma recommendations_of_seed process_data g r g' s :
  run process_data g = (Ok r, g') ->
  py_add (seed_part process_data "material")
         (seed_part process_data "production") = Ok (JStr s) ->
  exists g1, shuffle catalog (seed (SeedStr s)) = (Ok (recommendations r), g1).
Proof.
  intros H Hs.
  apply run_assessment_Ok in H
    as (? & ? & ? & ? & ? & ? & a & s1 & shuffled &
        _ & _ & _ & _ & _ & _ & Ha & Hseed & Hsh & ->).
  rewrite Hs in Ha. injection Ha as <-.
  apply random_seed_text_Ok in Hseed as [_ ->].
  simpl. rewrite (take_4_shuffled _ _ _ Hsh). eauto.
Qed.

Lemma recommendations_same_seed pd1 pd2 g1 g2 r1 r2 g1' g2' s :
  run pd1 g1 = (Ok r1, g1') ->
  run pd2 g2 = (Ok r2, g2') ->
  py_add (seed_part pd1 "material") (seed_part pd1 "production") = Ok (JStr s) ->
  py_add (seed_part pd2 "material") (seed_part pd2 "production") = Ok (JStr s) ->
  recommendations r1 = recommendations r2.
Proof.
  intros H1 H2 Hs1 Hs2.
  destruct (recommendations_of_seed _ _ _ _ _ H1 Hs1) as [k1 Hk1].
  destruct (recommendations_of_seed _ _ _ _ _ H2 Hs2) as [k2 Hk2].
  congruence.
Qed.

(** C4. Two runs of the assessment that return, on mappings with the
    same material text and the same production text (an absent key read
    as the empty text), give the same order of recommendations, from
    whatever state they find the generator in; and the recommendations of
    every run that returns are a permutation of the catalog of four. *)
Theorem C4_recommendations_deterministic :
  (forall pd1 pd2 g1 g2 r1 r2 g1' g2' material production,
     run pd1 g1 = (Ok r1, g1') ->
     run pd2 g2 = (Ok r2, g2') ->
     field_or_empty pd1 "material" = JStr material ->
     field_or_empty pd2 "material" = JStr material ->
     field_or_empty pd1 "production" = JStr production ->
     field_or_empty pd2 "production" = JStr production ->
     recommendations r1 = recommendations r2) /\
  (forall process_data g r g',
     run process_data g = (Ok r, g') ->
     recommendations r ≡ₚ catalog /\ length catalog = 4%nat).
Proof.
  split.
  - intros pd1 pd2 g1 g2 r1 r2 g1' g2' material production
      H1 H2 Hm1 Hm2 Hp1 Hp2.
    apply (recommendations_same_seed pd1 pd2 g1 g2 r1 r2 g1' g2'
             (material +:+ production) H1 H2);
      rewrite !seed_part_field_or_empty, ?Hm1, ?Hm2, ?Hp1, ?Hp2;
      apply py_add_or_empty.
  - intros process_data g r g' H.
    apply run_assessment_Ok in H
      as (? & ? & ? & ? & ? & ? & a & s1 & shuffled &
          _ & _ & _ & _ & _ & _ & _ & _ & Hsh & ->).
    simpl. rewrite (take_4_shuffled _ _ _ Hsh).
    split; [by eapply random_shuffle_Permutation | reflexivity].
Qed.

(** *** Where the handler stops *)

(** The handler, step by step: the first step that raises ends the run
    with its exception. *)
Lemma run_assessment_cases process_data g :
  match numeric process_data "recycledContent" with
  | Raise e => run process_data g = (Raise e, g)
  | Ok recycled =>
  match numeric process_data "rawMaterial" with
  | Raise e => run process_data g = (Raise e, g)
  | Ok raw_material =>
  match text_field process_data "energyUse" "medium",
        text_field process_data "transport" "road" with
  | JStr energy, JStr transport =>
  match Float64.py_round
          (circularity_value recycled raw_material (lower energy) (lower transport))
  with
  | Raise e => run process_data g = (Raise e, g)
  | Ok rounded =>
  match Float64.py_int (environmental_value recycled raw_material) with
  | Raise e => run process_data g = (Raise e, g)
  | Ok truncated =>
  match py_add (seed_part process_data "material")
               (seed_part process_data "production") with
  | Raise e => run process_data g = (Raise e, g)
  | Ok seed_arg =>
  match seed_gen seed_arg g with
  | (Raise e, g1) => run process_data g = (Raise e, g1)
  | (Ok _, g1) =>
  match shuffle catalog g1 with
  | (Raise e, g2) => run process_data g = (Raise e, g2)
  | (Ok shuffled, g2) => exists r, run process_data g = (Ok r, g2)
  end end end end end
  | _, _ => run process_data g = (Raise AttributeError, g)
  end end end.
Proof.
  unfold run_assessment, circularity_value, environmental_value.
  destruct (numeric process_data "recycledContent") as [recycled|e]; [|done].
  destruct (numeric process_data "rawMaterial") as [raw_material|e]; [|done].
  rewrite !(bind_lift_step _ _ _ _ eq_refl).
  destruct (text_field process_data "energyUse" "medium"); try done.
  cbn [call_lower]. rewrite (bind_lift_step _ _ _ _ eq_refl).
  destruct (text_field process_data "transport" "road"); try done.
  cbn [call_lower]. rewrite (bind_lift_step _ _ _ _ eq_refl).
  destruct (Float64.py_round _); [|done].
  rewrite (bind_lift_step _ _ _ _ eq_refl).
  destruct (Float64.py_int _); [|done].
  rewrite (bind_lift_step _ _ _ _ eq_refl).
  destruct (py_add _ _) as [seed_arg|e]; [|done].
  rewrite (bind_lift_step _ _ _ _ eq_refl).
  destruct (seed_gen seed_arg g) as [[[]|e] g1] eqn:Hs;
    [|by rewrite (bind_Raise _ _ _ _ _ Hs)].
  rewrite (bind_step _ _ _ _ _ Hs).
  destruct (shuffle catalog g1) as [[shuffled|e] g2] eqn:Hsh;
    [|by rewrite (bind_Raise _ _ _ _ _ Hsh)].
  rewrite (bind_step _ _ _ _ _ Hsh). unfold ret. eauto.
Qed.

Lemma numeric_field_ValueError process_data key :
  numeric process_data key = Raise ValueError <->
  rejected_text float_of_str process_data key.
Proof.
  unfold numeric_field, rejected_text, dict_get, py_or. split.
  - destruct (process_data !! key) as [v|]; simpl; [|discriminate].
    destruct (truthy v) eqn:Hv; [|discriminate].
    destruct v as [|b|z|f|s|l|l]; simpl in *; try discriminate.
    + unfold float_of_int. by destruct (Float64.is_finite _).
    + destruct (float_of_str s) eqn:Hs; [discriminate|]. intros _.
      exists s. repeat split; [|exact Hs]. intros ->. discriminate Hv.
  - intros (s & -> & Hne & Hs). simpl.
    destruct (String.eqb_spec s ""); [done|]. simpl. by rewrite Hs.
Qed.

Lemma py_round_ValueError x :
  Float64.py_round x = Raise ValueError <-> x = S754_nan.
Proof. by destruct x. Qed.

Lemma py_int_ValueError x :
  Float64.py_int x = Raise ValueError <-> x = S754_nan.
Proof. by destruct x. Qed.

Lemma py_add_no_ValueError a b : py_add a b <> Raise ValueError.
Proof.
  destruct a, b; simpl; try discriminate;
    unfold float_of_int; by destruct (Float64.is_finite _).
Qed.

Lemma shuffle_from_no_ValueError {A : Type} i (x : list A) g :
  fst (shuffle_at i x g) <> Raise ValueError.
Proof.
  revert x g. induction i as [|i IH]; intros x g.
  - simpl. discriminate.
  - rewrite shuffle_from_S. unfold swap.
    destruct (x !! _); [|simpl; discriminate].
    destruct (x !! _); [|simpl; discriminate]. apply IH.
Qed.

(** The handler raises a [ValueError] in four places: the two
    conversions by [float], the rounding or the cast of a NaN, and the
    encoding of the seed. *)
Lemma run_assessment_ValueError process_data g :
  fst (run process_data g) = Raise ValueError <->
  rejected_text float_of_str process_data "recycledContent" \/
  (exists recycled,
     numeric process_data "recycledContent" = Ok recycled /\
     rejected_text float_of_str process_data "rawMaterial") \/
  (exists recycled raw_material energy transport,
     numeric process_data "recycledContent" = Ok recycled /\
     numeric process_data "rawMaterial" = Ok raw_material /\
     text_field process_data "energyUse" "medium" = JStr energy /\
     text_field process_data "transport" "road" = JStr transport /\
     (circularity_value recycled raw_material (lower energy) (lower transport)
        = S754_nan \/
      Float64.is_finite
        (circularity_value recycled raw_material (lower energy) (lower transport))
        = true /\
      environmental_value recycled raw_material = S754_nan)) \/
  (exists recycled raw_material energy transport material production,
     numeric process_data "recycledContent" = Ok recycled /\
     numeric process_data "rawMaterial" = Ok raw_material /\
     text_field process_data "energyUse" "medium" = JStr energy /\
     text_field process_data "transport" "road" = JStr transport /\
     Float64.is_finite
       (circularity_value recycled raw_material (lower energy) (lower transport))
       = true /\
     Float64.is_finite (environmental_value recycled raw_material) = true /\
     seed_part process_data "material" = JStr material /\
     seed_part process_data "production" = JStr production /\
     has_surrogate (material +:+ production) = true).
Proof.
  pose proof (run_assessment_cases process_data g) as Hc.
  split.
  - intros HV.
    destruct (numeric process_data "recycledContent") as [recycled|e1] eqn:H1.
    2:{ rewrite Hc in HV. injection HV as ->.
        left. by apply numeric_field_ValueError. }
    destruct (numeric process_data "rawMaterial") as [raw_material|e2] eqn:H2.
    2:{ rewrite Hc in HV. injection HV as ->.
        right. left. exists recycled. split; [done|].
        by apply numeric_field_ValueError. }
    destruct (text_field process_data "energyUse" "medium")
      as [| | | |energy| |] eqn:H3;
      try (rewrite Hc in HV; discriminate HV).
    destruct (text_field process_data "transport" "road")
      as [| | | |transport| |] eqn:H4;
      try (rewrite Hc in HV; discriminate HV).
    destruct (Float64.py_round
                (circularity_value recycled raw_material
                   (lower energy) (lower transport))) as [rounded|e] eqn:Hr.
    2:{ rewrite Hc in HV. injection HV as ->.
        right. right. left. exists recycled, raw_material, energy, transport.
        repeat split; try done. left. by apply py_round_ValueError. }
    apply py_round_Ok in Hr.
    destruct (Float64.py_int (environmental_value recycled raw_material))
      as [truncated|e] eqn:Ht.
    2:{ rewrite Hc in HV. injection HV as ->.
        right. right. left. exists recycled, raw_material, energy, transport.
        repeat split; try done. right. split; [done|].
        by apply py_int_ValueError. }
    apply py_int_Ok in Ht.
    destruct (py_add (seed_part process_data "material")
                     (seed_part process_data "production"))
      as [seed_arg|e] eqn:Ha.
    2:{ rewrite Hc in HV. injection HV as ->.
        by destruct (py_add_no_ValueError _ _ Ha). }
    destruct (seed_gen seed_arg g) as [[[]|e] g1] eqn:Hs.
    2:{ rewrite Hc in HV. injection HV as ->.
        assert (Hs' : fst (seed_gen seed_arg g) = Raise ValueError)
          by (by rewrite Hs).
        apply random_seed_ValueError in Hs' as (t & -> & Hsur).
        apply py_add_text in Ha as (material & production & Hm & Hp & ->).
        do 3 right.
        exists recycled, raw_material, energy, transport, material, production.
        repeat split; done. }
    pose proof (shuffle_from_no_ValueError (length catalog - 1) catalog g1) as Hsh.
    unfold random_shuffle in Hc.
    destruct (shuffle_at (length catalog - 1) catalog g1) as [[shuffled|e] g2].
    + destruct Hc as [r Hc]. rewrite Hc in HV. discriminate HV.
    + rewrite Hc in HV. injection HV as ->. done.
  - intros [Ha | [(recycled & H1 & Hb)
                 | [(recycled & raw_material & energy & transport &
                     H1 & H2 & H3 & H4 & Hcv)
                   | (recycled & raw_material & energy & transport &
                      material & production &
                      H1 & H2 & H3 & H4 & Hfc & Hfv & Hm & Hp & Hsur)]]].
    + apply numeric_field_ValueError in Ha. rewrite Ha in Hc. by rewrite Hc.
    + apply numeric_field_ValueError in Hb. rewrite H1, Hb in Hc. by rewrite Hc.
    + rewrite H1, H2, H3, H4 in Hc. destruct Hcv as [Hn | [Hf Hn]].
      * rewrite Hn in Hc. simpl in Hc. by rewrite Hc.
      * destruct (py_round_finite _ Hf) as [rounded Hr].
        rewrite Hr, Hn in Hc. simpl in Hc. by rewrite Hc.
    + rewrite H1, H2, H3, H4 in Hc.
      destruct (py_round_finite _ Hfc) as [rounded Hr].
      destruct (py_int_finite _ Hfv) as [truncated Ht].
      rewrite Hr, Ht, Hm, Hp in Hc. cbn [py_add] in Hc.
      unfold random_seed, str_encode in Hc. rewrite Hsur in Hc.
      by rewrite Hc.
Qed.

Section Contract.

(** The contract of [_randbelow(n)]: a number below [n]. *)
Hypothesis randbelow_lt :
  forall g n, (0 < n)%nat -> (fst (randbelow g n) < n)%nat.

Lemma shuffle_from_returns {A : Type} i (x : list A) g :
  (i < length x)%nat -> exists y g', shuffle_at i x g = (Ok y, g').
Proof.
  revert x g. induction i as [|i IH]; intros x g Hi.
  - simpl. unfold ret. eauto.
  - rewrite shuffle_from_S.
    pose proof (randbelow_lt g (S i + 1)%nat ltac:(lia)) as Hj.
    destruct (randbelow g (S i + 1)) as [j g1]. simpl in Hj |- *.
    destruct (swap_returns x (S i) j) as [x' Hs]; [lia | lia |].
    rewrite Hs. apply IH.
    apply swap_Permutation, Permutation_length in Hs. lia.
Qed.

Lemma random_shuffle_returns {A : Type} (x : list A) g :
  exists y g', shuffle x g = (Ok y, g').
Proof.
  unfold random_shuffle. destruct x as [|a x].
  - simpl. unfold ret. eauto.
  - apply shuffle_from_returns. simpl. lia.
Qed.

(** The handler returns once its conversions and both roundings go
    through and the seed is a text that can be encoded. *)
Lemma run_returns process_data g recycled raw_material energy transport
    material production rounded truncated :
  numeric process_data "recycledContent" = Ok recycled ->
  numeric process_data "rawMaterial" = Ok raw_material ->
  text_field process_data "energyUse" "medium" = JStr energy ->
  text_field process_data "transport" "road" = JStr transport ->
  Float64.py_round
    (circularity_value recycled raw_material (lower energy) (lower transport))
    = Ok rounded ->
  Float64.py_int (environmental_value recycled raw_material) = Ok truncated ->
  seed_part process_data "material" = JStr material ->
  seed_part process_data "production" = JStr production ->
  has_surrogate (material +:+ production) = false ->
  exists shuffled g',
    shuffle catalog (seed (SeedStr (material +:+ production))) = (Ok shuffled, g') /\
    run process_data g =
      (Ok {| circularityScore := clamp rounded;
             environmentalScore := clamp (60 + truncated);
             recommendations := shuffled;
             missingParams :=
               Z.max 0 (Z.of_nat (length
                 (filter (fun f => process_data !! f = None) expected_fields)));
             debug_missingFields :=
               filter (fun f => process_data !! f = None) expected_fields |}, g').
Proof.
  intros H1 H2 H3 H4 H5 H6 H7 H8 H9.
  destruct (random_shuffle_returns catalog (seed (SeedStr (material +:+ production))))
    as (shuffled & g' & Hs).
  exists shuffled, g'. split; [exact Hs|].
  apply run_assessment_Ok.
  exists recycled, raw_material, (lower energy), (lower transport), rounded,
    truncated, (JStr (material +:+ production)),
    (seed (SeedStr (material +:+ production))), shuffled.
  rewrite H3, H4, H7, H8, (take_4_shuffled _ _ _ Hs), (random_seed_text _ _ H9).
  repeat split; assumption.
Qed.

(** On percentages the handler returns: with both numeric fields whole
    numbers from 0 to 100 (50 for an absent key, 0 for an empty value),
    the four text fields absent, empty or texts, and a seed that can be
    encoded. *)
Lemma run_returns_on_percentages process_data g a b energy transport
    material production :
  0 <= a <= 100 -> 0 <= b <= 100 ->
  numeric process_data "recycledContent" = Ok (Float64.of_Z a) ->
  numeric process_data "rawMaterial" = Ok (Float64.of_Z b) ->
  text_field process_data "energyUse" "medium" = JStr energy ->
  text_field process_data "transport" "road" = JStr transport ->
  seed_part process_data "material" = JStr material ->
  seed_part process_data "production" = JStr production ->
  has_surrogate (material +:+ production) = false ->
  exists r g', run process_data g = (Ok r, g').
Proof.
  intros Ha Hb H1 H2 H3 H4 H7 H8 H9.
  destruct (percentages_finite a b (lower energy) (lower transport) Ha Hb)
    as [[rounded H5]%py_round_finite [truncated H6]%py_int_finite].
  destruct (run_returns process_data g _ _ _ _ _ _ _ _ H1 H2 H3 H4 H5 H6 H7 H8 H9)
    as (shuffled & g' & _ & Hrun).
  eauto.
Qed.

(** *** The circularity score *)

(** C1. Whenever the assessment returns, its circularity score is the
    value of the formula of the specification on the two converted numeric
    fields and the two text fields: 50 plus the difference times 0.3, plus
    10 when the energy use is "low" or "renewable" whatever the case of
    its letters, plus 5 when the transport is "rail" or "sea" likewise,
    rounded to the nearest integer and clamped to 0..100; the arithmetic is
    that of doubles and a tie is rounded to the even neighbour. For
    recycledContent 80, rawMaterial 20, energyUse "renewable" and
    transport "rail" the assessment returns the score 83. *)
Theorem C1_circularity_score :
  (forall process_data g r g',
     run process_data g = (Ok r, g') ->
     exists recycled raw_material energy transport,
       numeric process_data "recycledContent" = Ok recycled /\
       numeric process_data "rawMaterial" = Ok raw_material /\
       text_field process_data "energyUse" "medium" = JStr energy /\
       text_field process_data "transport" "road" = JStr transport /\
       circularity_formula recycled raw_material energy transport
         = Ok (circularityScore r)) /\
  (forall g, exists r g',
     run spec_example_input g = (Ok r, g') /\ circularityScore r = 83).
Proof.
  split.
  - intros process_data g r g' H.
    apply run_assessment_Ok in H
      as (recycled & raw_material & el & tl & rounded & truncated & seed_arg &
          g1 & shuffled & H1 & H2 & H3 & H4 & H5 & _ & _ & _ & _ & ->).
    apply call_lower_Ok in H3 as (energy & H3 & ->).
    apply call_lower_Ok in H4 as (transport & H4 & ->).
    exists recycled, raw_material, energy, transport.
    rewrite circularity_formula_value, H5. done.
  - intros g.
    destruct (run_returns spec_example_input g
                (Float64.of_Z 80) (Float64.of_Z 20) "renewable" "rail" "" "" 83 14)
      as (shuffled & g' & _ & Hrun); try (vm_compute; reflexivity).
    eexists _, g'. split; [exact Hrun|]. reflexivity.
Qed.

(** *** The environmental score *)

(** C2, as the code has it. Whenever the assessment returns, its
    environmental score is 60 plus the integer part of
    recycledContent * 0.2 - rawMaterial * 0.1, the fraction dropped
    towards zero, clamped to 0..100; for the empty mapping, where both
    fields are 50, the assessment returns the score 65. *)
Theorem C2_environmental_score :
  (forall process_data g r g',
     run process_data g = (Ok r, g') ->
     exists recycled raw_material,
       numeric process_data "recycledContent" = Ok recycled /\
       numeric process_data "rawMaterial" = Ok raw_material /\
       environmental_formula Float64.py_int recycled raw_material
         = Ok (environmentalScore r)) /\
  (forall g, exists r g',
     run ∅ g = (Ok r, g') /\ environmentalScore r = 65).
Proof.
  split.
  - intros process_data g r g' H.
    apply run_assessment_Ok in H
      as (recycled & raw_material & el & tl & rounded & truncated & seed_arg &
          g1 & shuffled & H1 & H2 & _ & _ & _ & H6 & _ & _ & _ & ->).
    exists recycled, raw_material.
    rewrite environmental_formula_value, H6. done.
  - intros g.
    destruct (run_returns ∅ g (Float64.of_Z 50) (Float64.of_Z 50)
                "medium" "road" "" "" 50 5)
      as (shuffled & g' & _ & Hrun); try (vm_compute; reflexivity).
    eexists _, g'. split; [exact Hrun|]. reflexivity.
Qed.

(** *** The count of missing fields *)

(** C6. Whenever the assessment returns, missingParams is the number of
    the seven expected keys that are absent from the mapping; a key that
    is present is not missing whatever its value, an empty or null one
    too. The empty mapping gives missingParams 7 and all seven names in
    debug.missingFields. *)
Theorem C6_missing_params :
  (forall process_data g r g',
     run process_data g = (Ok r, g') ->
     missingParams r =
       Z.of_nat (size (list_to_set expected_fields ∖ dom process_data : gset string)) /\
     (forall k v, process_data !! k = Some v -> k ∉ debug_missingFields r) /\
     (forall k, k ∈ expected_fields -> process_data !! k = None ->
                k ∈ debug_missingFields r)) /\
  length expected_fields = 7%nat /\
  (forall g, exists r g',
     run ∅ g = (Ok r, g') /\ missingParams r = 7 /\
     debug_missingFields r = expected_fields).
Proof.
  split; [|split; [reflexivity|]].
  - intros process_data g r g' H.
    apply run_assessment_Ok in H
      as (? & ? & ? & ? & ? & ? & ? & ? & ? &
          _ & _ & _ & _ & _ & _ & _ & _ & _ & ->).
    simpl. rewrite <- missing_fields_size. split; [lia|]. split.
    + intros k v Hk [_ Hnone]%missing_fields_elem. congruence.
    + intros k Hk Hnone. by apply missing_fields_elem.
  - intros g.
    destruct (run_returns ∅ g (Float64.of_Z 50) (Float64.of_Z 50)
                "medium" "road" "" "" 50 5)
      as (shuffled & g' & _ & Hrun); try (vm_compute; reflexivity).
    eexists _, g'. split; [exact Hrun|]. split; reflexivity.
Qed.

(** *** The seed is the concatenation *)

(** C10. Two runs of the assessment that return, on mappings whose
    material and production (each read as the empty string when absent or
    empty) are texts with the same concatenation, give the same order of
    recommendations, also when the pairs differ: material "ab" with
    production "" and material "a" with production "b" both return, with
    the same order. *)
Theorem C10_same_concatenation :
  (forall pd1 pd2 g1 g2 r1 r2 g1' g2' m1 p1 m2 p2,
     run pd1 g1 = (Ok r1, g1') ->
     run pd2 g2 = (Ok r2, g2') ->
     seed_part pd1 "material" = JStr m1 ->
     seed_part pd1 "production" = JStr p1 ->
     seed_part pd2 "material" = JStr m2 ->
     seed_part pd2 "production" = JStr p2 ->
     m1 +:+ p1 = m2 +:+ p2 ->
     recommendations r1 = recommendations r2) /\
  (forall g1 g2, exists r1 g1' r2 g2',
     run input_ab g1 = (Ok r1, g1') /\
     run input_a_b g2 = (Ok r2, g2') /\
     recommendations r1 = recommendations r2).
Proof.
  split.
  - intros pd1 pd2 g1 g2 r1 r2 g1' g2' m1 p1 m2 p2 H1 H2 Hm1 Hp1 Hm2 Hp2 Heq.
    apply (recommendations_same_seed pd1 pd2 g1 g2 r1 r2 g1' g2'
             (m1 +:+ p1) H1 H2).
    + by rewrite Hm1, Hp1.
    + rewrite Hm2, Hp2. simpl. by rewrite Heq.
  - intros g1 g2.
    destruct (run_returns input_ab g1 (Float64.of_Z 50) (Float64.of_Z 50)
                "medium" "road" "ab" "" 50 5)
      as (sh1 & g1' & Hs1 & Hrun1); try (vm_compute; reflexivity).
    destruct (run_returns input_a_b g2 (Float64.of_Z 50) (Float64.of_Z 50)
                "medium" "road" "a" "b" 50 5)
      as (sh2 & g2' & Hs2 & Hrun2); try (vm_compute; reflexivity).
    eexists _, g1', _, g2'. split; [exact Hrun1|]. split; [exact Hrun2|].
    change ("a" +:+ "b") with ("ab" +:+ "") in Hs2.
    rewrite Hs1 in Hs2. by injection Hs2 as <- _.
Qed.

(** *** Failures *)

(** C7, as the code has it. The assessment fails with a [ValueError],
    which it does not handle, exactly in these cases: recycledContent is a
    non-empty text that [float] rejects; or recycledContent converts and
    rawMaterial is such a text; or both convert, energyUse and transport
    are absent, empty or texts, and the circularity value is NaN, or is
    finite while the environmental value is NaN; or both convert,
    energyUse and transport are absent, empty or texts, both score values
    are finite, and material and production are absent, empty or texts
    whose concatenation holds a surrogate, which [random.seed] cannot
    encode. The assessment returns a result exactly when both numeric
    fields convert, energyUse and transport are absent, empty or texts,
    the two score values are finite, and material and production, each
    read as the empty text when absent or empty, add up to a value that
    [random.seed] accepts: a number, or a text without surrogate. An
    error of the assessment, whatever its class, leaves the route as it
    was raised and is answered with the status 500. *)
Theorem C7_failures_and_returns :
  (forall process_data g,
     fst (run process_data g) = Raise ValueError <->
     rejected_text float_of_str process_data "recycledContent" \/
     (exists recycled,
        numeric process_data "recycledContent" = Ok recycled /\
        rejected_text float_of_str process_data "rawMaterial") \/
     (exists recycled raw_material energy transport,
        numeric process_data "recycledContent" = Ok recycled /\
        numeric process_data "rawMaterial" = Ok raw_material /\
        text_field process_data "energyUse" "medium" = JStr energy /\
        text_field process_data "transport" "road" = JStr transport /\
        (circularity_value recycled raw_material (lower energy) (lower transport)
           = S754_nan \/
         Float64.is_finite
           (circularity_value recycled raw_material (lower energy) (lower transport))
           = true /\
         environmental_value recycled raw_material = S754_nan)) \/
     (exists recycled raw_material energy transport material production,
        numeric process_data "recycledContent" = Ok recycled /\
        numeric process_data "rawMaterial" = Ok raw_material /\
        text_field process_data "energyUse" "medium" = JStr energy /\
        text_field process_data "transport" "road" = JStr transport /\
        Float64.is_finite
          (circularity_value recycled raw_material (lower energy) (lower transport))
          = true /\
        Float64.is_finite (environmental_value recycled raw_material) = true /\
        seed_part process_data "material" = JStr material /\
        seed_part process_data "production" = JStr production /\
        has_surrogate (material +:+ production) = true)) /\
  (forall process_data g,
     returns (fst (run process_data g)) <->
     exists recycled raw_material energy transport seed_arg,
       numeric process_data "recycledContent" = Ok recycled /\
       numeric process_data "rawMaterial" = Ok raw_material /\
       text_field process_data "energyUse" "medium" = JStr energy /\
       text_field process_data "transport" "road" = JStr transport /\
       Float64.is_finite
         (circularity_value recycled raw_material (lower energy) (lower transport))
         = true /\
       Float64.is_finite (environmental_value recycled raw_material) = true /\
       py_add (seed_part process_data "material")
              (seed_part process_data "production") = Ok seed_arg /\
       accepted_seed seed_arg = true) /\
  (forall process_data g e,
     fst (run (dict_of process_data) g) = Raise e ->
     fst (post_api_assessment float_of_str rng seed reseed randbelow
            (Some (assessment_body process_data)) g) = Raise e /\
     http_status
       (fst (post_api_assessment float_of_str rng seed reseed randbelow
               (Some (assessment_body process_data)) g)) = 500).
Proof.
  split; [exact run_assessment_ValueError|]. split.
  - intros process_data g. split.
    + intros [r Hr].
      destruct (run process_data g) as [res g'] eqn:Hrun. simpl in Hr. subst res.
      apply run_assessment_Ok in Hrun
        as (recycled & raw_material & el & tl & rounded & truncated & seed_arg &
            g1 & shuffled & H1 & H2 & H3 & H4 & H5 & H6 & H7 & H8 & _ & _).
      apply call_lower_Ok in H3 as (energy & H3 & ->).
      apply call_lower_Ok in H4 as (transport & H4 & ->).
      exists recycled, raw_material, energy, transport, seed_arg.
      split_and!; try done.
      * by eapply py_round_Ok.
      * by eapply py_int_Ok.
      * apply (random_seed_accepted seed_arg g). eauto.
    + intros (recycled & raw_material & energy & transport & seed_arg &
              H1 & H2 & H3 & H4 & Hfc & Hfv & Ha & Hacc).
      destruct (py_round_finite _ Hfc) as [rounded H5].
      destruct (py_int_finite _ Hfv) as [truncated H6].
      apply (random_seed_accepted seed_arg g) in Hacc as [g1 Hs].
      destruct (random_shuffle_returns catalog g1) as (shuffled & g2 & Hsh).
      assert (Hrun : exists r, run process_data g = (Ok r, g2)).
      { eexists. apply run_assessment_Ok.
        exists recycled, raw_material, (lower energy), (lower transport),
          rounded, truncated, seed_arg, g1, shuffled.
        rewrite H3, H4. split_and!; try eassumption; reflexivity. }
      destruct Hrun as [r Hrun]. exists r. by rewrite Hrun.
  - intros process_data g e He. unfold assessment_body.
    rewrite post_api_assessment_mapping. unfold bind.
    destruct (run (dict_of process_data) g) as [[r|e'] g']; simpl in *.
    + discriminate He.
    + by injection He as ->.
Qed.

End Contract.

End HandlerFacts.

(** ** The report exporter *)

Lemma fullmatch_app p1 p2 s1 s2 :
  fullmatch p1 s1 = true -> fullmatch p2 s2 = true ->
  fullmatch (p1 ++ p2) (s1 +:+ s2) = true.
Proof.
  revert s1. induction p1 as [|i p1 IH]; intros [|c s1]; simpl; try discriminate.
  - auto.
  - intros [Hi Hp]%andb_true_iff H2. rewrite Hi. simpl. by apply IH.
Qed.

Lemma year_4_digits n :
  1000 <= n < 10000 -> fullmatch (repeat Digit 4) (Csv.str_of_Z n) = true.
Proof.
  intros Hn.
  assert (Hm : (n <? 1000) || fullmatch (repeat Digit 4) (Csv.str_of_Z n) = true).
  { apply (forallb_range
             (fun n => (n <? 1000) || fullmatch (repeat Digit 4) (Csv.str_of_Z n))
             (Z.to_nat 10000)); [vm_compute; reflexivity | lia]. }
  apply orb_true_iff in Hm as [Hm%Z.ltb_lt | Hm]; [lia | exact Hm].
Qed.

Lemma zero_pad_2_digits n :
  0 <= n < 100 -> fullmatch (repeat Digit 2) (zero_pad 2 n) = true.
Proof.
  apply (forallb_range (fun n => fullmatch (repeat Digit 2) (zero_pad 2 n))
           (Z.to_nat 100)).
  vm_compute. reflexivity.
Qed.

Lemma strftime_compact_matches t :
  valid_datetime t ->
  fullmatch (repeat Digit 8 ++ literal "T" ++ repeat Digit 6 ++ literal "Z")
            (strftime_compact t) = true.
Proof.
  intros (Hy & Hm & Hd & HH & HM & HS). unfold strftime_compact.
  change (repeat Digit 8 ++ literal "T" ++ repeat Digit 6 ++ literal "Z")
    with (repeat Digit 4 ++ repeat Digit 2 ++ repeat Digit 2 ++ literal "T"
          ++ repeat Digit 2 ++ repeat Digit 2 ++ repeat Digit 2 ++ literal "Z").
  repeat apply fullmatch_app;
    first [ apply year_4_digits; lia
          | apply zero_pad_2_digits; lia
          | reflexivity ].
Qed.

(** C8. Whatever the time of the call, the export is the CSV text of
    five lines, each ended by the line terminator CR LF: the header
    Metric,Conventional,Circular and four rows whose values are those of
    the environmental impact dataset, in its order; each line is three
    fields between commas, none of them quoted; and the file name is
    circularmetals_report_, eight digits, T, six digits, Z and .csv. *)
Theorem C8_export_report (utcnow : datetime) :
  valid_datetime utcnow ->
  body (export_report_csv utcnow) =
    Csv.join "" (map (fun fields => Csv.join "," fields +:+ Csv.lineterminator)
                     report_table) /\
  length report_table = 5%nat /\
  Forall (fun fields => length fields = 3%nat /\
                        Forall (fun f => Csv.has_special f = false) fields)
         report_table /\
  Csv.split Csv.LF (body (export_report_csv utcnow)) =
    map (fun fields => Csv.join "," fields +:+ String Csv.CR EmptyString)
        report_table ++ [EmptyString] /\
  Forall (fun fields => Csv.split Csv.comma (Csv.join "," fields) = fields)
         report_table /\
  mimetype (export_report_csv utcnow) = "text/csv"%string /\
  as_attachment (export_report_csv utcnow) = true /\
  fullmatch filename_pattern (download_name (export_report_csv utcnow)) = true.
Proof.
  intros Hvalid.
  split; [vm_compute; reflexivity|]. split; [reflexivity|].
  split; [repeat constructor|].
  split; [vm_compute; reflexivity|].
  split; [repeat constructor|].
  split; [reflexivity|]. split; [reflexivity|].
  unfold export_report_csv. simpl download_name.
  change filename_pattern
    with (literal "circularmetals_report_"
          ++ (repeat Digit 8 ++ literal "T" ++ repeat Digit 6 ++ literal "Z")
          ++ literal ".csv").
  apply fullmatch_app; [reflexivity|].
  apply fullmatch_app; [by apply strftime_compact_matches | reflexivity].
Qed.

Lemma C8_witness :
  fullmatch filename_pattern
    (download_name (export_report_csv
       {| year := 2026; month := 11; day := 3;
          hour := 7; minute := 5; second := 0 |})) = true.
Proof.
  apply (C8_export_report
           {| year := 2026; month := 11; day := 3;
              hour := 7; minute := 5; second := 0 |}).
  unfold valid_datetime. simpl. lia.
Defined.

(** ** The handler on the test runtime *)

Lemma demo_randbelow_lt g n :
  (0 < n)%nat -> (fst (Demo.demo_randbelow g n) < n)%nat.
Proof. intros Hn. simpl. apply Nat.mod_upper_bound. lia. Qed.

Example run_spec_example :
  exists r, Demo.run spec_example_input = Ok r /\
            circularityScore r = 83 /\ environmentalScore r = 74 /\
            missingParams r = 3.
Proof. eexists. split; [vm_compute; reflexivity|]. repeat split. Qed.

Example run_empty :
  exists r, Demo.run ∅ = Ok r /\
            circularityScore r = 50 /\ environmentalScore r = 65 /\
            missingParams r = 7.
Proof. eexists. split; [vm_compute; reflexivity|]. repeat split. Qed.

(** Text is converted as well: "80" for recycledContent. *)
Example run_text_number :
  exists r, Demo.run (<[ "recycledContent" := JStr "80" ]> ∅) = Ok r /\
            circularityScore r = 59 /\ environmentalScore r = 71.
Proof. eexists. split; [vm_compute; reflexivity|]. repeat split. Qed.

(** The circularity value 54.5 is a tie: it is rounded to 54. *)
Example run_tie :
  exists r, Demo.run (<[ "recycledContent" := JInt 15 ]>
                        (<[ "rawMaterial" := JInt 0 ]> ∅)) = Ok r /\
            circularityScore r = 54.
Proof. eexists. split; [vm_compute; reflexivity|]. reflexivity. Qed.

(** *** Witnesses *)

Lemma C1_witness :
  exists r g', Demo.run_state spec_example_input 0 = (Ok r, g') /\
               circularityScore r = 83.
Proof.
  exact (proj2 (C1_circularity_score Demo.demo_float_of_str nat Demo.demo_seed Demo.demo_reseed
                  Demo.demo_randbelow demo_randbelow_lt) 0%nat).
Defined.

Lemma C2_witness :
  exists r g', Demo.run_state ∅ 0 = (Ok r, g') /\ environmentalScore r = 65.
Proof.
  exact (proj2 (C2_environmental_score Demo.demo_float_of_str nat Demo.demo_seed Demo.demo_reseed
                  Demo.demo_randbelow demo_randbelow_lt) 0%nat).
Defined.

Lemma C3_witness :
  exists recycled raw_material energy transport,
    field_value Demo.demo_float_of_str (S754_zero false)
      input_empty_recycled "recycledContent" recycled /\
    field_value Demo.demo_float_of_str (S754_zero false)
      input_empty_recycled "rawMaterial" raw_material /\
    text_field input_empty_recycled "energyUse" "medium" = JStr energy /\
    text_field input_empty_recycled "transport" "road" = JStr transport /\
    circularity_formula recycled raw_material energy transport = Ok 35 /\
    environmental_formula Float64.py_int recycled raw_material = Ok 55.
Proof.
  eapply (C3_numeric_fields Demo.demo_float_of_str nat Demo.demo_seed Demo.demo_reseed
            Demo.demo_randbelow input_empty_recycled 0%nat
            {| circularityScore := 35; environmentalScore := 55;
               recommendations := _; missingParams := _;
               debug_missingFields := _ |}).
  vm_compute. reflexivity.
Defined.

Lemma C4_witness :
  exists r g', Demo.run_state input_ab 0 = (Ok r, g') /\
               recommendations r ≡ₚ catalog /\ length catalog = 4%nat.
Proof.
  eexists _, _. split; [vm_compute; reflexivity|].
  eapply (proj2 (C4_recommendations_deterministic Demo.demo_float_of_str nat
                   Demo.demo_seed Demo.demo_reseed Demo.demo_randbelow) input_ab 0%nat).
  vm_compute. reflexivity.
Defined.

Lemma C5_witness :
  exists r g', Demo.run_state spec_example_input 0 = (Ok r, g') /\
               0 <= circularityScore r <= 100 /\
               0 <= environmentalScore r <= 100.
Proof.
  eexists _, _. split; [vm_compute; reflexivity|].
  eapply (C5_scores_in_range Demo.demo_float_of_str nat Demo.demo_seed Demo.demo_reseed
            Demo.demo_randbelow spec_example_input 0%nat).
  vm_compute. reflexivity.
Defined.

Lemma C6_witness :
  exists r g', Demo.run_state ∅ 0 = (Ok r, g') /\ missingParams r = 7 /\
               debug_missingFields r = expected_fields.
Proof.
  exact (proj2 (proj2 (C6_missing_params Demo.demo_float_of_str nat
                         Demo.demo_seed Demo.demo_reseed Demo.demo_randbelow demo_randbelow_lt))
           0%nat).
Defined.

Lemma C7_witness :
  Demo.run (<[ "recycledContent" := JStr "abc" ]> ∅) = Raise ValueError /\
  Demo.run input_material_surrogate = Raise ValueError /\
  returns (Demo.run input_material_numbers) /\
  http_status
    (fst (post_api_assessment Demo.demo_float_of_str nat Demo.demo_seed
            Demo.demo_reseed Demo.demo_randbelow
            (Some (assessment_body [("energyUse"%string, JInt 5)])) 0%nat)) = 500.
Proof.
  split; [|split; [|split]].
  - apply (proj1 (C7_failures_and_returns Demo.demo_float_of_str nat
                    Demo.demo_seed Demo.demo_reseed Demo.demo_randbelow
                    demo_randbelow_lt)
             (<[ "recycledContent" := JStr "abc" ]> ∅) 0%nat).
    left. exists "abc"%string.
    split; [reflexivity|]. split; [discriminate|reflexivity].
  - apply (proj1 (C7_failures_and_returns Demo.demo_float_of_str nat
                    Demo.demo_seed Demo.demo_reseed Demo.demo_randbelow
                    demo_randbelow_lt)
             input_material_surrogate 0%nat).
    do 3 right.
    exists (Float64.of_Z 50), (Float64.of_Z 50), "medium"%string, "road"%string,
      lone_surrogate, ""%string.
    repeat split; vm_compute; reflexivity.
  - apply (proj1 (proj2 (C7_failures_and_returns Demo.demo_float_of_str nat
                           Demo.demo_seed Demo.demo_reseed Demo.demo_randbelow
                           demo_randbelow_lt))
             input_material_numbers 0%nat).
    exists (Float64.of_Z 50), (Float64.of_Z 50), "medium"%string, "road"%string,
      (JInt 3).
    repeat split; vm_compute; reflexivity.
  - apply (proj2 (proj2 (C7_failures_and_returns Demo.demo_float_of_str nat
                           Demo.demo_seed Demo.demo_reseed Demo.demo_randbelow
                           demo_randbelow_lt))
             [("energyUse"%string, JInt 5)] 0%nat AttributeError).
    vm_compute. reflexivity.
Defined.

Lemma C9_witness :
  exists r g',
    Demo.run_state (<[ "rawMaterial" := JInt 20 ]>
                      (<[ "transport" := JStr "rail" ]> ∅)) 0 = (Ok r, g') /\
    debug_missingFields r =
      [ "material"; "production"; "recycledContent"; "energyUse";
        "endOfLife" ]%string /\
    missingParams r = 5.
Proof.
  eexists _, _. split; [vm_compute; reflexivity|].
  edestruct (C9_missing_fields_order Demo.demo_float_of_str nat Demo.demo_seed
               Demo.demo_reseed Demo.demo_randbelow
               (<[ "rawMaterial" := JInt 20 ]> (<[ "transport" := JStr "rail" ]> ∅))
               0%nat) as (_ & _ & Hlen & Horder); [vm_compute; reflexivity|].
  split; [|exact Hlen].
  apply Horder. by rewrite !dom_insert_L, dom_empty_L, (right_id_L ∅ (∪)).
Defined.

Lemma C10_witness :
  exists r1 g1' r2 g2',
    Demo.run_state input_ab 0 = (Ok r1, g1') /\
    Demo.run_state input_a_b 5 = (Ok r2, g2') /\
    recommendations r1 = recommendations r2.
Proof.
  exact (proj2 (C10_same_concatenation Demo.demo_float_of_str nat Demo.demo_seed Demo.demo_reseed
                  Demo.demo_randbelow demo_randbelow_lt) 0%nat 5%nat).
Defined.

(** ** Where the wording of the specification and the code part *)

(** C2 as worded, with the floor. On recycledContent 0 and rawMaterial 5
    the value under the integer cast is -0.5: the handler returns
    60 + 0 = 60, the formula with the floor gives 60 - 1 = 59. *)
Lemma C2_counterexample :
  numeric_field Demo.demo_float_of_str input_0_5 "recycledContent"
    = Ok (S754_zero false) /\
  numeric_field Demo.demo_float_of_str input_0_5 "rawMaterial"
    = Ok (Float64.of_Z 5) /\
  environmental_value (S754_zero false) (Float64.of_Z 5)
    = S754_finite true 4503599627370496 (-53) /\
  (exists r, Demo.run input_0_5 = Ok r /\ environmentalScore r = 60) /\
  environmental_formula Float64.floor (S754_zero false) (Float64.of_Z 5) = Ok 59 /\
  ~ (forall float_of_str rng seed reseed randbelow process_data g r g',
       run_assessment float_of_str rng seed reseed randbelow process_data g = (Ok r, g') ->
       exists recycled raw_material,
         numeric_field float_of_str process_data "recycledContent" = Ok recycled /\
         numeric_field float_of_str process_data "rawMaterial" = Ok raw_material /\
         environmental_formula Float64.floor recycled raw_material
           = Ok (environmentalScore r)).
Proof.
  split; [reflexivity|]. split; [reflexivity|]. split; [reflexivity|].
  split; [eexists; split; [vm_compute; reflexivity | reflexivity]|].
  split; [reflexivity|].
  intros H.
  edestruct (H Demo.demo_float_of_str nat Demo.demo_seed Demo.demo_reseed Demo.demo_randbelow
               input_0_5 0%nat) as (recycled & raw_material & H1 & H2 & H3);
    [vm_compute; reflexivity|].
  vm_compute in H1. injection H1 as <-.
  vm_compute in H2. injection H2 as <-.
  vm_compute in H3. discriminate H3.
Qed.

(** C3 as worded, with 50 for an empty value. On a mapping whose
    recycledContent is the empty string the field is 0: the handler
    returns the scores 35 and 55, where 50 for the field would give 50
    and 65. *)
Lemma C3_counterexample :
  numeric_field Demo.demo_float_of_str input_empty_recycled "recycledContent"
    = Ok (S754_zero false) /\
  (exists r, Demo.run input_empty_recycled = Ok r /\
             circularityScore r = 35 /\ environmentalScore r = 55) /\
  circularity_formula (Float64.of_Z 50) (Float64.of_Z 50) "medium" "road" = Ok 50 /\
  ~ (forall float_of_str rng seed reseed randbelow process_data g r g',
       run_assessment float_of_str rng seed reseed randbelow process_data g = (Ok r, g') ->
       exists recycled raw_material energy transport,
         field_value float_of_str (Float64.of_Z 50) process_data
           "recycledContent" recycled /\
         field_value float_of_str (Float64.of_Z 50) process_data
           "rawMaterial" raw_material /\
         text_field process_data "energyUse" "medium" = JStr energy /\
         text_field process_data "transport" "road" = JStr transport /\
         circularity_formula recycled raw_material energy transport
           = Ok (circularityScore r) /\
         environmental_formula Float64.py_int recycled raw_material
           = Ok (environmentalScore r)).
Proof.
  split; [reflexivity|].
  split; [eexists; split; [vm_compute; reflexivity | split; reflexivity]|].
  split; [reflexivity|].
  intros H.
  edestruct (H Demo.demo_float_of_str nat Demo.demo_seed Demo.demo_reseed Demo.demo_randbelow
               input_empty_recycled 0%nat)
    as (recycled & raw_material & energy & transport &
        H1 & H2 & H3 & H4 & H5 & _);
    [vm_compute; reflexivity|].
  vm_compute in H1. subst recycled.
  vm_compute in H2. subst raw_material.
  vm_compute in H3. injection H3 as <-.
  vm_compute in H4. injection H4 as <-.
  vm_compute in H5. discriminate H5.
Qed.

(** C7 as worded. A number for energyUse makes the handler fail with an
    [AttributeError] although no numeric field is present; a list for
    recycledContent is a [TypeError]; NaN for recycledContent is accepted
    by [float] and is a [ValueError] of the rounding; a surrogate alone as
    material is a [ValueError] of [random.seed], again with no numeric
    field present. So the handler does not return on every input whose
    numeric fields [float] accepts, and its [ValueError] is not always
    one of a numeric field. *)
Lemma C7_counterexample :
  Demo.run input_energy_5 = Raise AttributeError /\
  input_energy_5 !! "recycledContent"%string = None /\
  input_energy_5 !! "rawMaterial"%string = None /\
  Demo.run input_recycled_list = Raise TypeError /\
  py_float Demo.demo_float_of_str (JFloat S754_nan) = Ok S754_nan /\
  Demo.run input_recycled_nan = Raise ValueError /\
  Demo.run input_material_surrogate = Raise ValueError /\
  input_material_surrogate !! "recycledContent"%string = None /\
  input_material_surrogate !! "rawMaterial"%string = None /\
  ~ (forall float_of_str rng seed reseed randbelow,
       (forall g n, (0 < n)%nat -> (fst (randbelow g n) < n)%nat) ->
       forall process_data g,
         (forall key v,
            key = "recycledContent"%string \/ key = "rawMaterial"%string ->
            process_data !! key = Some v -> truthy v = true ->
            returns (py_float float_of_str v)) ->
         exists r g',
           run_assessment float_of_str rng seed reseed randbelow process_data g
             = (Ok r, g')) /\
  ~ (forall float_of_str rng seed reseed randbelow process_data g,
       fst (run_assessment float_of_str rng seed reseed randbelow process_data g)
         = Raise ValueError ->
       rejected_text float_of_str process_data "recycledContent" \/
       rejected_text float_of_str process_data "rawMaterial").
Proof.
  split; [reflexivity|]. split; [reflexivity|]. split; [reflexivity|].
  split; [reflexivity|]. split; [reflexivity|]. split; [reflexivity|].
  split; [reflexivity|]. split; [reflexivity|]. split; [reflexivity|].
  split.
  - intros H.
    destruct (H Demo.demo_float_of_str nat Demo.demo_seed Demo.demo_reseed
                Demo.demo_randbelow demo_randbelow_lt input_energy_5 0%nat)
      as (r & g' & Hrun).
    + intros key v [-> | ->] Hk; vm_compute in Hk; discriminate Hk.
    + vm_compute in Hrun. discriminate Hrun.
  - intros H.
    destruct (H Demo.demo_float_of_str nat Demo.demo_seed Demo.demo_reseed
                Demo.demo_randbelow input_material_surrogate 0%nat eq_refl)
      as [(t & Hk & _) | (t & Hk & _)]; vm_compute in Hk; discriminate Hk.
Qed.


(** * Further properties of the handlers *)

(** ** The scores on whole percentages, by running through them *)

Lemma for_all_percents_spec (P : Z -> Z -> bool) :
  for_all_percents P = true ->
  forall a b, 0 <= a <= 100 -> 0 <= b <= 100 -> P a b = true.
Proof.
  intros H a b Ha Hb. unfold for_all_percents, percents in H.
  apply (forallb_range (fun b => P a b) 101); [|lia].
  apply (forallb_range
           (fun a => forallb (fun b => P a b) (map Z.of_nat (seq 0 101))) 101);
    [exact H | lia].
Qed.

(** The table holds the scores. *)
Lemma table_row_spec a b :
  0 <= a <= 100 -> 0 <= b <= 100 -> table_row a b = percent_row a b.
Proof.
  intros Ha Hb.
  pose proof (for_all_percents_spec
    (fun a b => row_eqb (table_row a b) (percent_row a b))
    ltac:(vm_compute; reflexivity) a b Ha Hb) as H.
  unfold row_eqb in H.
  destruct (table_row a b) as [[[[r1 r2] r3] r4] r5].
  destruct (percent_row a b) as [[[[s1 s2] s3] s4] s5].
  repeat (apply andb_true_iff in H as [H ?]).
  repeat f_equal; lia.
Qed.

(** A check of the table is a fact about the scores. *)
Lemma percent_table_check (P : Z -> Z -> bool) a b :
  for_all_percents P = true -> 0 <= a <= 100 -> 0 <= b <= 100 -> P a b = true.
Proof. intros H. by apply for_all_percents_spec. Qed.

(** A function on the integers that does not fall from one step to the
    next does not fall over several steps. *)
Lemma monotone_steps (f : Z -> Z) lo hi :
  (forall x, lo <= x < hi -> f x <= f (x + 1)) ->
  forall x y, lo <= x -> x <= y -> y <= hi -> f x <= f y.
Proof.
  intros Hstep x y Hx Hxy Hy.
  replace y with (x + Z.of_nat (Z.to_nat (y - x))) in * by lia.
  induction (Z.to_nat (y - x)) as [|n IH]; [rewrite Z.add_0_r; lia|].
  etrans; [apply IH; lia|].
  replace (x + Z.of_nat (S n)) with (x + Z.of_nat n + 1) by lia.
  apply Hstep. lia.
Qed.

Lemma row_circularity_spec a b e t :
  0 <= a <= 100 -> 0 <= b <= 100 ->
  row_circularity (table_row a b) e t = percent_circularity a b e t.
Proof. intros Ha Hb. rewrite table_row_spec by lia. by destruct e, t. Qed.

Lemma row_environmental_spec a b :
  0 <= a <= 100 -> 0 <= b <= 100 ->
  row_environmental (table_row a b) = percent_environmental a b.
Proof. intros Ha Hb. by rewrite table_row_spec by lia. Qed.

Lemma both_spec (P : bool -> bool) : both P = true -> forall x, P x = true.
Proof. unfold both. intros [? ?]%andb_true_iff []; assumption. Qed.

Lemma percent_scores_range a b e t :
  0 <= a <= 100 -> 0 <= b <= 100 ->
  20 <= percent_circularity a b e t <= 95 /\
  50 <= percent_environmental a b <= 80.
Proof.
  intros Ha Hb.
  pose proof (percent_table_check
    (fun a b =>
       both (fun e => both (fun t =>
         (20 <=? row_circularity (table_row a b) e t)
         && (row_circularity (table_row a b) e t <=? 95)))
       && ((50 <=? row_environmental (table_row a b))
           && (row_environmental (table_row a b) <=? 80)))
    a b ltac:(vm_compute; reflexivity) Ha Hb) as H.
  apply andb_true_iff in H as [Hc He].
  apply both_spec with (x := e) in Hc. apply both_spec with (x := t) in Hc.
  rewrite row_circularity_spec in Hc by lia.
  rewrite row_environmental_spec in He by lia. lia.
Qed.

Lemma percent_scores_step_recycled a b e t :
  0 <= a < 100 -> 0 <= b <= 100 ->
  percent_circularity a b e t <= percent_circularity (a + 1) b e t /\
  percent_environmental a b <= percent_environmental (a + 1) b.
Proof.
  intros Ha Hb.
  pose proof (percent_table_check
    (fun a b =>
       (a =? 100) ||
       (both (fun e => both (fun t =>
          row_circularity (table_row a b) e t
          <=? row_circularity (table_row (a + 1) b) e t))
        && (row_environmental (table_row a b)
            <=? row_environmental (table_row (a + 1) b))))
    a b ltac:(vm_compute; reflexivity) ltac:(lia) Hb) as H.
  apply orb_true_iff in H as [H | H]; [lia|].
  apply andb_true_iff in H as [Hc He].
  apply both_spec with (x := e) in Hc. apply both_spec with (x := t) in Hc.
  rewrite !row_circularity_spec in Hc by lia.
  rewrite !row_environmental_spec in He by lia. lia.
Qed.

Lemma percent_scores_step_raw a b e t :
  0 <= a <= 100 -> 0 <= b < 100 ->
  percent_circularity a (b + 1) e t <= percent_circularity a b e t /\
  percent_environmental a (b + 1) <= percent_environmental a b.
Proof.
  intros Ha Hb.
  pose proof (percent_table_check
    (fun a b =>
       (b =? 100) ||
       (both (fun e => both (fun t =>
          row_circularity (table_row a (b + 1)) e t
          <=? row_circularity (table_row a b) e t))
        && (row_environmental (table_row a (b + 1))
            <=? row_environmental (table_row a b))))
    a b ltac:(vm_compute; reflexivity) Ha ltac:(lia)) as H.
  apply orb_true_iff in H as [H | H]; [lia|].
  apply andb_true_iff in H as [Hc He].
  apply both_spec with (x := e) in Hc. apply both_spec with (x := t) in Hc.
  rewrite !row_circularity_spec in Hc by lia.
  rewrite !row_environmental_spec in He by lia. lia.
Qed.

Lemma percent_scores_monotone a1 b1 a2 b2 e t :
  0 <= a1 -> a1 <= a2 -> a2 <= 100 -> 0 <= b2 -> b2 <= b1 -> b1 <= 100 ->
  percent_circularity a1 b1 e t <= percent_circularity a2 b2 e t /\
  percent_environmental a1 b1 <= percent_environmental a2 b2.
Proof.
  intros Ha1 Ha Ha2 Hb2 Hb Hb1.
  assert (Hrec : forall b, 0 <= b <= 100 ->
            percent_circularity a1 b e t <= percent_circularity a2 b e t /\
            percent_environmental a1 b <= percent_environmental a2 b).
  { intros b Hb0. split.
    - apply (monotone_steps (fun a => percent_circularity a b e t) 0 100);
        [|lia..].
      intros x Hx. by apply percent_scores_step_recycled.
    - apply (monotone_steps (fun a => percent_environmental a b) 0 100);
        [|lia..].
      intros x Hx. by apply (percent_scores_step_recycled x b true true). }
  assert (Hraw : forall a, 0 <= a <= 100 ->
            percent_circularity a b1 e t <= percent_circularity a b2 e t /\
            percent_environmental a b1 <= percent_environmental a b2).
  { intros a Ha0. split.
    - pose proof (monotone_steps
        (fun x => - percent_circularity a x e t) 0 100) as Hm.
      cbv beta in Hm. specialize (Hm ltac:(
        intros x Hx;
        pose proof (percent_scores_step_raw a x e t ltac:(lia) ltac:(lia));
        lia) b2 b1 ltac:(lia) ltac:(lia) ltac:(lia)). lia.
    - pose proof (monotone_steps
        (fun x => - percent_environmental a x) 0 100) as Hm.
      cbv beta in Hm. specialize (Hm ltac:(
        intros x Hx;
        pose proof (percent_scores_step_raw a x true true ltac:(lia) ltac:(lia));
        lia) b2 b1 ltac:(lia) ltac:(lia) ltac:(lia)). lia. }
  destruct (Hrec b1 ltac:(lia)), (Hraw a2 ltac:(lia)). lia.
Qed.

Lemma percent_circularity_diagonal a b e t :
  0 <= a < 100 -> 0 <= b < 100 ->
  percent_circularity (a + 1) (b + 1) e t = percent_circularity a b e t.
Proof.
  intros Ha Hb.
  pose proof (percent_table_check
    (fun a b =>
       (a =? 100) || (b =? 100) ||
       both (fun e => both (fun t =>
          row_circularity (table_row (a + 1) (b + 1)) e t
          =? row_circularity (table_row a b) e t)))
    a b ltac:(vm_compute; reflexivity) ltac:(lia) ltac:(lia)) as H.
  apply orb_true_iff in H as [H | H]; [lia|].
  apply both_spec with (x := e) in H. apply both_spec with (x := t) in H.
  rewrite !row_circularity_spec in H by lia. lia.
Qed.

Lemma percent_circularity_difference a1 b1 a2 b2 e t :
  0 <= a1 <= 100 -> 0 <= b1 <= 100 -> 0 <= a2 <= 100 -> 0 <= b2 <= 100 ->
  a1 - b1 = a2 - b2 ->
  percent_circularity a1 b1 e t = percent_circularity a2 b2 e t.
Proof.
  assert (Hshift : forall k a b,
            0 <= a -> 0 <= b -> a + Z.of_nat k <= 100 -> b + Z.of_nat k <= 100 ->
            percent_circularity (a + Z.of_nat k) (b + Z.of_nat k) e t
            = percent_circularity a b e t).
  { induction k as [|k IH]; intros a b Ha Hb Hak Hbk.
    - by rewrite !Z.add_0_r.
    - replace (a + Z.of_nat (S k)) with (a + Z.of_nat k + 1) by lia.
      replace (b + Z.of_nat (S k)) with (b + Z.of_nat k + 1) by lia.
      rewrite percent_circularity_diagonal by lia. apply IH; lia. }
  intros Ha1 Hb1 Ha2 Hb2 Hd.
  destruct (Z.le_ge_cases a1 a2).
  - rewrite <- (Hshift (Z.to_nat (a2 - a1)) a1 b1) by lia.
    f_equal; lia.
  - rewrite <- (Hshift (Z.to_nat (a1 - a2)) a2 b2) by lia.
    f_equal; lia.
Qed.

Lemma percent_circularity_bonus a b :
  0 <= a <= 100 -> 0 <= b <= 100 ->
  (forall t, percent_circularity a b true t
             = percent_circularity a b false t + 10) /\
  (forall e, 4 <= percent_circularity a b e true
                  - percent_circularity a b e false <= 6).
Proof.
  intros Ha Hb.
  pose proof (percent_table_check
    (fun a b =>
       both (fun t =>
         row_circularity (table_row a b) true t
         =? row_circularity (table_row a b) false t + 10)
       && both (fun e =>
         (4 <=? row_circularity (table_row a b) e true
                - row_circularity (table_row a b) e false)
         && (row_circularity (table_row a b) e true
             - row_circularity (table_row a b) e false <=? 6)))
    a b ltac:(vm_compute; reflexivity) Ha Hb) as H.
  apply andb_true_iff in H as [H1 H2]. split.
  - intros t. apply both_spec with (x := t) in H1.
    rewrite !row_circularity_spec in H1 by lia. lia.
  - intros e. apply both_spec with (x := e) in H2.
    rewrite !row_circularity_spec in H2 by lia. lia.
Qed.


(** ** Texts and decimal numbers *)

Lemma append_cons x (a b : string) : String x a +:+ b = String x (a +:+ b).
Proof. reflexivity. Qed.

Lemma append_empty (b : string) : EmptyString +:+ b = b.
Proof. reflexivity. Qed.

Lemma append_assoc_string (a b c : string) : (a +:+ b) +:+ c = a +:+ (b +:+ c).
Proof.
  induction a as [|x a IH]; [reflexivity|]. by rewrite !append_cons, IH.
Qed.

Lemma append_inj_length (a1 a2 b1 b2 : string) :
  String.length a1 = String.length a2 ->
  a1 +:+ b1 = a2 +:+ b2 -> a1 = a2 /\ b1 = b2.
Proof.
  revert a2. induction a1 as [|x a1 IH]; intros [|y a2]; simpl; try discriminate.
  - done.
  - rewrite !append_cons. intros [= Hlen] [= -> H].
    destruct (IH a2 Hlen H) as [-> ->]. done.
Qed.

Lemma fullmatch_length p s :
  fullmatch p s = true -> String.length s = length p.
Proof.
  revert s. induction p as [|i p IH]; intros [|c s]; simpl; try discriminate.
  - done.
  - intros [_ H]%andb_true_iff. f_equal. by apply IH.
Qed.

Lemma prefix_append (p s : string) :
  String.prefix p s = true <-> exists rest, s = p +:+ rest.
Proof.
  revert s. induction p as [|x p IH]; intros s.
  - split; [intros _; by exists s | intros _; by destruct s].
  - destruct s as [|y s]; simpl.
    + split; [discriminate | intros [rest [=]]].
    + destruct (Ascii.ascii_dec x y) as [->|Hne].
      * rewrite IH. split; intros [rest H]; exists rest;
          rewrite ?append_cons in *; congruence.
      * split; [discriminate |].
        intros [rest H]. rewrite append_cons in H. congruence.
Qed.

(** The text of a number in decimal is made of its digits. *)
Lemma string_of_uint_digits u :
  fullmatch (repeat Digit (Decimal.nb_digits u)) (NilEmpty.string_of_uint u) = true.
Proof. induction u; simpl; auto. Qed.

Lemma str_of_Z_uint n :
  0 <= n -> Csv.str_of_Z n = NilEmpty.string_of_uint (N.to_uint (Z.to_N n)).
Proof. by destruct n. Qed.

Lemma to_uint_digits n :
  Decimal.nb_digits (N.to_uint n) = Decimal.nb_digits (DecimalPos.Unsigned.to_lu n).
Proof.
  destruct n; [reflexivity|]. simpl. unfold Pos.to_uint.
  apply DecimalFacts.nb_digits_rev.
Qed.

Lemma nb_digits_little_succ d :
  (Decimal.nb_digits d <= Decimal.nb_digits (Decimal.Little.succ d))%nat.
Proof. induction d; simpl; lia. Qed.

(** A larger number has at least as many digits. *)
Lemma to_lu_digits_le n m :
  (n <= m)%N ->
  (Decimal.nb_digits (DecimalPos.Unsigned.to_lu n)
   <= Decimal.nb_digits (DecimalPos.Unsigned.to_lu m))%nat.
Proof.
  intros Hnm. replace m with (n + N.of_nat (N.to_nat (m - n)))%N by lia.
  induction (N.to_nat (m - n)) as [|k IH]; [by rewrite N.add_0_r|].
  replace (n + N.of_nat (S k))%N with (N.succ (n + N.of_nat k)) by lia.
  rewrite DecimalPos.Unsigned.to_lu_succ.
  etrans; [exact IH | apply nb_digits_little_succ].
Qed.

Lemma str_of_Z_length n :
  0 <= n ->
  String.length (Csv.str_of_Z n)
  = Decimal.nb_digits (DecimalPos.Unsigned.to_lu (Z.to_N n)).
Proof.
  intros Hn. rewrite str_of_Z_uint by done.
  rewrite (fullmatch_length _ _ (string_of_uint_digits _)), repeat_length.
  apply to_uint_digits.
Qed.

Lemma fullmatch_zeros k :
  fullmatch (repeat Digit k)
    (string_of_list_ascii (repeat (ascii_of_nat 48) k)) = true.
Proof. induction k as [|k IH]; [reflexivity|]. simpl. exact IH. Qed.

(** A number below a bound that fits the width is padded to exactly that
    many digits. *)
Lemma zero_pad_digits width n bound :
  0 <= n <= bound ->
  (String.length (Csv.str_of_Z bound) <= width)%nat ->
  fullmatch (repeat Digit width) (zero_pad width n) = true.
Proof.
  intros Hn Hw. unfold zero_pad.
  assert (Hlen : (String.length (Csv.str_of_Z n) <= width)%nat).
  { rewrite str_of_Z_length by lia. rewrite str_of_Z_length in Hw by lia.
    etrans; [apply (to_lu_digits_le _ (Z.to_N bound)); lia | exact Hw]. }
  replace width with
    ((width - String.length (Csv.str_of_Z n))
     + String.length (Csv.str_of_Z n))%nat at 1 by lia.
  rewrite repeat_app. apply fullmatch_app; [apply fullmatch_zeros|].
  rewrite str_of_Z_uint by lia.
  rewrite (fullmatch_length _ _ (string_of_uint_digits _)), repeat_length.
  apply string_of_uint_digits.
Qed.

(** The padded text gives the number back. *)
Lemma zero_pad_uint k u :
  string_of_list_ascii (repeat (ascii_of_nat 48) k) +:+ NilEmpty.string_of_uint u
  = NilEmpty.string_of_uint (Nat.iter k Decimal.D0 u).
Proof.
  induction k as [|k IH]; [reflexivity|]. simpl. rewrite <- IH. reflexivity.
Qed.

Lemma of_uint_zeros k u : N.of_uint (Nat.iter k Decimal.D0 u) = N.of_uint u.
Proof. induction k as [|k IH]; [reflexivity|]. simpl. exact IH. Qed.

Lemma string_of_uint_inj u v :
  NilEmpty.string_of_uint u = NilEmpty.string_of_uint v -> u = v.
Proof.
  intros H. apply (f_equal NilEmpty.uint_of_string) in H.
  rewrite !NilEmpty.usu in H. congruence.
Qed.

Lemma zero_pad_inj width n m :
  0 <= n -> 0 <= m -> zero_pad width n = zero_pad width m -> n = m.
Proof.
  intros Hn Hm. unfold zero_pad.
  rewrite !str_of_Z_uint, !zero_pad_uint by done.
  intros H%string_of_uint_inj. apply (f_equal N.of_uint) in H.
  rewrite !of_uint_zeros, !DecimalN.Unsigned.of_to in H. lia.
Qed.

Lemma str_of_Z_inj n m :
  0 <= n -> 0 <= m -> Csv.str_of_Z n = Csv.str_of_Z m -> n = m.
Proof.
  intros Hn Hm. rewrite !str_of_Z_uint by done.
  intros H%string_of_uint_inj. apply (f_equal N.of_uint) in H.
  rewrite !DecimalN.Unsigned.of_to in H. lia.
Qed.



(** ** A filter only looks at the elements of its list *)

Lemma filter_ext_elem {A : Type} (P Q : A -> Prop)
    `{!forall x, Decision (P x)} `{!forall x, Decision (Q x)} (l : list A) :
  (forall x, x ∈ l -> (P x <-> Q x)) -> filter P l = filter Q l.
Proof.
  induction l as [|a l IH]; intros Hext; [reflexivity|].
  rewrite !filter_cons, IH by (intros x Hx; apply Hext; by right).
  pose proof (Hext a ltac:(by left)).
  destruct (decide (P a)), (decide (Q a)); tauto.
Qed.

Lemma dict_of_lookup_None entries key :
  key ∉ entries.*1 -> dict_of entries !! key = None.
Proof.
  unfold dict_of.
  assert (Hgen : forall d : gmap string json,
            key ∉ entries.*1 ->
            fold_left (fun d kv => <[ fst kv := snd kv ]> d) entries d !! key
            = d !! key).
  { induction entries as [|[k v] entries IH]; intros d Hk; [reflexivity|].
    apply not_elem_of_cons in Hk as [Hne Hk]. simpl in *.
    rewrite IH by exact Hk. apply lookup_insert_ne. congruence. }
  intros Hk. by rewrite Hgen.
Qed.

Section HandlerExtras.

Variable float_of_str : string -> option spec_float.
Variable rng : Type.
Variable seed : seed_key -> rng.
Variable reseed : rng -> rng.
Variable randbelow : rng -> nat -> nat * rng.

Abbreviation run := (run_assessment float_of_str rng seed reseed randbelow).
Abbreviation post := (post_api_assessment float_of_str rng seed reseed randbelow).
Abbreviation numeric := (numeric_field float_of_str).
Abbreviation seed_gen := (random_seed rng seed reseed).
Abbreviation shuffle := (random_shuffle rng randbelow).
Abbreviation shuffle_at := (shuffle_from rng randbelow).
Abbreviation run_cases :=
  (run_assessment_cases float_of_str rng seed reseed randbelow).
Abbreviation run_Ok := (run_assessment_Ok float_of_str rng seed reseed randbelow).

(** *** What the result depends on *)

Lemma expected_fields_read k :
  k ∈ expected_fields -> k ∈ read_keys \/ k = "endOfLife"%string.
Proof.
  unfold expected_fields, read_keys. rewrite !elem_of_cons, elem_of_nil.
  intros [-> | [-> | [-> | [-> | [-> | [-> | [-> | []]]]]]]]; tauto.
Qed.

(** X3. The result of the assessment, an error too, and the state it
    leaves the generator in depend on the mapping only through the values
    under the six keys it reads and through the presence of endOfLife:
    the value of endOfLife and every other key are ignored. *)
Theorem run_assessment_reads_only pd1 pd2 :
  (forall k, k ∈ read_keys -> pd1 !! k = pd2 !! k) ->
  (pd1 !! "endOfLife"%string = None <-> pd2 !! "endOfLife"%string = None) ->
  forall g, run pd1 g = run pd2 g.
Proof.
  intros Hread Heol g.
  assert (Hk : forall k, k ∈ read_keys ->
            forall d, dict_get pd1 k d = dict_get pd2 k d).
  { intros k Hin d. unfold dict_get. by rewrite (Hread k Hin). }
  assert (Hmissing :
            filter (fun f => pd1 !! f = None) expected_fields =
            filter (fun f => pd2 !! f = None) expected_fields).
  { apply filter_ext_elem. intros f [Hf | ->]%expected_fields_read;
      [by rewrite (Hread f Hf) | exact Heol]. }
  unfold run_assessment, numeric_field, text_field, seed_part, dict_get_none.
  rewrite Hmissing.
  rewrite !(Hk "recycledContent"%string), !(Hk "rawMaterial"%string),
    !(Hk "energyUse"%string), !(Hk "transport"%string),
    !(Hk "material"%string), !(Hk "production"%string)
    by (unfold read_keys; rewrite !elem_of_cons; tauto).
  reflexivity.
Qed.

(** *** The errors of a numeric field *)

(** X4. The conversion of a numeric field raises a [TypeError] exactly
    for a non-empty list or mapping, an [OverflowError] exactly for a
    whole number too large for a double, a [ValueError] exactly for a
    non-empty text that [float] rejects, and nothing else; null, false
    and the empty values are read as 0. *)
Theorem numeric_field_errors process_data key :
  (numeric process_data key = Raise TypeError <->
   exists v, process_data !! key = Some v /\ truthy v = true /\
             ((exists l, v = JArr l) \/ (exists l, v = JObj l))) /\
  (numeric process_data key = Raise OverflowError <->
   exists z, process_data !! key = Some (JInt z) /\
             Float64.is_finite (Float64.of_Z z) = false) /\
  (numeric process_data key = Raise ValueError <->
   rejected_text float_of_str process_data key) /\
  (forall e, numeric process_data key = Raise e ->
             e = TypeError \/ e = OverflowError \/ e = ValueError) /\
  (forall v, process_data !! key = Some v -> truthy v = false ->
             numeric process_data key = Ok (S754_zero false)).
Proof.
  split; [|split; [|split; [apply numeric_field_ValueError|split]]].
  - unfold numeric_field, dict_get, py_or. split.
    + destruct (process_data !! key) as [v|]; simpl; [|discriminate].
      destruct (truthy v) eqn:Hv; [|discriminate].
      destruct v as [|b|z|f|s|l|l]; simpl in *; try discriminate.
      * unfold float_of_int. by destruct (Float64.is_finite _).
      * by destruct (float_of_str s).
      * intros _. exists (JArr l). eauto.
      * intros _. exists (JObj l). eauto 6.
    + intros (v & -> & Hv & Hkind). simpl. rewrite Hv.
      by destruct Hkind as [[l ->] | [l ->]].
  - unfold numeric_field, dict_get, py_or. split.
    + destruct (process_data !! key) as [v|]; simpl; [|discriminate].
      destruct (truthy v) eqn:Hv; [|discriminate].
      destruct v as [|b|z|f|s|l|l]; simpl in *; try discriminate.
      * unfold float_of_int.
        destruct (Float64.is_finite _) eqn:Hz; [discriminate|]. eauto.
      * by destruct (float_of_str s).
    + intros (z & -> & Hz). simpl.
      destruct (Z.eqb_spec z 0) as [->|_]; [discriminate Hz|]. simpl.
      unfold float_of_int. by rewrite Hz.
  - unfold numeric_field, dict_get, py_or. intros e.
    destruct (process_data !! key) as [v|]; simpl; [|discriminate].
    destruct (truthy v); [|discriminate].
    destruct v as [|b|z|f|s|l|l]; simpl; try discriminate;
      try (intros [= <-]; tauto).
    + unfold float_of_int. destruct (Float64.is_finite _); [discriminate|].
      intros [= <-]. tauto.
    + destruct (float_of_str s); [discriminate|]. intros [= <-]. tauto.
  - intros v Hk Hv. unfold numeric_field, dict_get, py_or.
    rewrite Hk. simpl. by rewrite Hv.
Qed.

(** *** Where an [AttributeError] comes from *)

Lemma text_field_not_text process_data key dflt :
  (forall s, text_field process_data key dflt <> JStr s) <->
  non_text_value process_data key.
Proof.
  unfold text_field, non_text_value, dict_get, py_or. split.
  - destruct (process_data !! key) as [v|]; simpl.
    + destruct (truthy v) eqn:Hv; [eauto | intros H; by destruct (H dflt)].
    + intros H. by destruct (H dflt).
  - intros (v & -> & Hv & Hnot). simpl. by rewrite Hv.
Qed.

Lemma shuffle_from_only_IndexError {A : Type} i (x : list A) g e :
  fst (shuffle_at i x g) = Raise e -> e = IndexError.
Proof.
  revert x g. induction i as [|i IH]; intros x g.
  - simpl. discriminate.
  - rewrite shuffle_from_S. unfold swap.
    destruct (x !! _); [|simpl; congruence].
    destruct (x !! _); [|simpl; congruence]. apply IH.
Qed.

Lemma numeric_field_raises process_data key e :
  numeric process_data key = Raise e ->
  e <> AttributeError /\ e <> IndexError.
Proof.
  intros H. destruct (proj1 (proj2 (proj2 (proj2 (numeric_field_errors
    process_data key)))) e H) as [-> | [-> | ->]]; done.
Qed.

Lemma py_round_raises x e :
  Float64.py_round x = Raise e -> e <> AttributeError /\ e <> IndexError.
Proof. destruct x; simpl; intros [= <-]; done. Qed.

Lemma py_int_raises x e :
  Float64.py_int x = Raise e -> e <> AttributeError /\ e <> IndexError.
Proof. destruct x; simpl; intros [= <-]; done. Qed.

Lemma py_add_raises a b e :
  py_add a b = Raise e -> e <> AttributeError /\ e <> IndexError.
Proof.
  destruct a, b; simpl; try (intros [= <-]; done);
    unfold float_of_int; destruct (Float64.is_finite _); simpl;
    intros [= <-]; done.
Qed.

(** X5. The assessment fails with an [AttributeError] exactly when both
    numeric fields convert and energyUse or transport holds a value that
    is neither empty nor a text (a number, true, a non-empty list or
    mapping): such a value has no method [lower]. *)
Theorem run_assessment_AttributeError process_data g :
  fst (run process_data g) = Raise AttributeError <->
  (exists recycled, numeric process_data "recycledContent" = Ok recycled) /\
  (exists raw_material, numeric process_data "rawMaterial" = Ok raw_material) /\
  (non_text_value process_data "energyUse" \/
   non_text_value process_data "transport").
Proof.
  rewrite <- (text_field_not_text process_data "energyUse" "medium"),
          <- (text_field_not_text process_data "transport" "road").
  pose proof (run_cases process_data g) as Hc.
  destruct (numeric process_data "recycledContent") as [recycled|e1] eqn:H1.
  2:{ rewrite Hc. simpl. split.
      - intros [= ->]. by destruct (numeric_field_raises _ _ _ H1).
      - by intros [[? [=]] _]. }
  destruct (numeric process_data "rawMaterial") as [raw_material|e2] eqn:H2.
  2:{ rewrite Hc. simpl. split.
      - intros [= ->]. by destruct (numeric_field_raises _ _ _ H2).
      - by intros [_ [[? [=]] _]]. }
  destruct (text_field process_data "energyUse" "medium") as [| | | |energy| |];
    try (rewrite Hc; simpl; split; [|done]; intros _;
         split; [eauto|]; split; [eauto|]; left; intros s; discriminate).
  destruct (text_field process_data "transport" "road") as [| | | |transport| |];
    try (rewrite Hc; simpl; split; [|done]; intros _;
         split; [eauto|]; split; [eauto|]; right; intros s; discriminate).
  assert (Hno : ~ ((exists recycled0, Ok recycled = Ok recycled0) /\
                   (exists raw0, Ok raw_material = Ok raw0) /\
                   ((forall s, JStr energy <> JStr s) \/
                    (forall s, JStr transport <> JStr s)))).
  { intros (_ & _ & [H | H]); [by apply (H energy) | by apply (H transport)]. }
  split; [|tauto]. intros Hraise. exfalso. clear Hno.
  destruct (Float64.py_round _) as [rounded|e] eqn:Hr.
  2:{ rewrite Hc in Hraise. injection Hraise as ->.
      by destruct (py_round_raises _ _ Hr). }
  destruct (Float64.py_int _) as [truncated|e] eqn:Ht.
  2:{ rewrite Hc in Hraise. injection Hraise as ->.
      by destruct (py_int_raises _ _ Ht). }
  destruct (py_add _ _) as [seed_arg|e] eqn:Ha.
  2:{ rewrite Hc in Hraise. injection Hraise as ->.
      by destruct (py_add_raises _ _ _ Ha). }
  destruct (seed_gen seed_arg g) as [[[]|e] g1] eqn:Hs.
  2:{ rewrite Hc in Hraise. injection Hraise as ->.
      by destruct (random_seed_Raise rng seed reseed _ _ _ _ Hs)
        as [_ [[=] | [=]]]. }
  pose proof (shuffle_from_only_IndexError (length catalog - 1) catalog g1) as Hsh.
  unfold random_shuffle in Hc.
  destruct (shuffle_at (length catalog - 1) catalog g1) as [[shuffled|e] g2].
  - destruct Hc as [r Hc]. rewrite Hc in Hraise. discriminate Hraise.
  - rewrite Hc in Hraise. injection Hraise as ->.
    by specialize (Hsh AttributeError eq_refl).
Qed.

(** *** The generator after a run *)

(** X7. A run that returns on a mapping whose material and production
    are absent, empty or texts leaves the shared generator in the state
    reached by seeding it with the concatenation of the two texts and
    shuffling the catalog once, and returns that shuffle: neither depends
    on the state the run found. *)
Theorem run_assessment_leaves_generator process_data g r g' material production :
  run process_data g = (Ok r, g') ->
  seed_part process_data "material" = JStr material ->
  seed_part process_data "production" = JStr production ->
  shuffle catalog (seed (SeedStr (material +:+ production)))
    = (Ok (recommendations r), g').
Proof.
  intros H Hm Hp.
  apply run_Ok in H
    as (? & ? & ? & ? & ? & ? & a & g1 & shuffled &
        _ & _ & _ & _ & _ & _ & Ha & Hseed & Hsh & ->).
  rewrite Hm, Hp in Ha. injection Ha as <-.
  apply (random_seed_text_Ok rng seed reseed) in Hseed as [_ ->].
  simpl. by rewrite (take_4_shuffled _ _ _ _ _ Hsh).
Qed.

Section ContractExtras.

Hypothesis randbelow_lt :
  forall g n, (0 < n)%nat -> (fst (randbelow g n) < n)%nat.

(** X6. A run that fails leaves the shared generator as it found it, and
    the error is a [ValueError], a [TypeError], an [OverflowError] or an
    [AttributeError]: the shuffle never indexes out of range. *)
Theorem run_assessment_failure process_data g e g' :
  run process_data g = (Raise e, g') ->
  g' = g /\
  (e = ValueError \/ e = TypeError \/ e = OverflowError \/ e = AttributeError).
Proof.
  assert (Hexn : forall e0, e0 <> IndexError ->
            e0 = ValueError \/ e0 = TypeError \/ e0 = OverflowError \/
            e0 = AttributeError).
  { intros []; tauto. }
  intros Hraise. pose proof (run_cases process_data g) as Hc.
  destruct (numeric process_data "recycledContent") as [recycled|e1] eqn:H1.
  2:{ rewrite Hc in Hraise. injection Hraise as <- <-.
      split; [done|]. apply Hexn. by destruct (numeric_field_raises _ _ _ H1). }
  destruct (numeric process_data "rawMaterial") as [raw_material|e2] eqn:H2.
  2:{ rewrite Hc in Hraise. injection Hraise as <- <-.
      split; [done|]. apply Hexn. by destruct (numeric_field_raises _ _ _ H2). }
  destruct (text_field process_data "energyUse" "medium") as [| | | |energy| |];
    try (rewrite Hc in Hraise; injection Hraise as <- <-; tauto).
  destruct (text_field process_data "transport" "road") as [| | | |transport| |];
    try (rewrite Hc in Hraise; injection Hraise as <- <-; tauto).
  destruct (Float64.py_round _) as [rounded|e0] eqn:Hr.
  2:{ rewrite Hc in Hraise. injection Hraise as <- <-.
      split; [done|]. apply Hexn. by destruct (py_round_raises _ _ Hr). }
  destruct (Float64.py_int _) as [truncated|e0] eqn:Ht.
  2:{ rewrite Hc in Hraise. injection Hraise as <- <-.
      split; [done|]. apply Hexn. by destruct (py_int_raises _ _ Ht). }
  destruct (py_add _ _) as [seed_arg|e0] eqn:Ha.
  2:{ rewrite Hc in Hraise. injection Hraise as <- <-.
      split; [done|]. apply Hexn. by destruct (py_add_raises _ _ _ Ha). }
  destruct (seed_gen seed_arg g) as [[[]|e0] g1] eqn:Hs.
  2:{ rewrite Hc in Hraise. injection Hraise as <- <-.
      destruct (random_seed_Raise rng seed reseed _ _ _ _ Hs)
        as [-> [-> | ->]]; tauto. }
  destruct (random_shuffle_returns rng randbelow randbelow_lt catalog g1)
    as (shuffled & g2 & Hsh).
  rewrite Hsh in Hc. destruct Hc as [r Hc]. rewrite Hc in Hraise.
  discriminate Hraise.
Qed.

(** *** The route *)

(** X1. A request without a body, with a body that is empty (null,
    false, zero, an empty text, list or mapping), or with a mapping that
    has no key processData is answered as the empty mapping is: with the
    status 200, the scores 50 and 65, and all seven fields missing. *)
Theorem post_api_assessment_default body g :
  body = None \/
  (exists v, body = Some v /\ truthy v = false) \/
  (exists entries, body = Some (JObj entries) /\
                   "processData"%string ∉ entries.*1) ->
  post body g = bind rng (run ∅) (fun result => ret rng (result, 200)) g /\
  exists r g',
    post body g = (Ok (r, 200), g') /\
    circularityScore r = 50 /\ environmentalScore r = 65 /\
    missingParams r = 7 /\ debug_missingFields r = expected_fields.
Proof.
  intros Hbody.
  assert (Heq : post body g =
                bind rng (run ∅) (fun result => ret rng (result, 200)) g).
  { destruct Hbody as [-> | [(v & -> & Hv) | (entries & -> & Hk)]].
    - reflexivity.
    - unfold post_api_assessment, py_or. simpl. rewrite Hv. reflexivity.
    - unfold post_api_assessment, py_or, dict_get. simpl.
      destruct entries as [|entry entries]; [reflexivity|]. simpl.
      rewrite (dict_of_lookup_None (entry :: entries) _ Hk). reflexivity. }
  split; [exact Heq|]. rewrite Heq.
  destruct (run_returns float_of_str rng seed reseed randbelow randbelow_lt
              ∅ g (Float64.of_Z 50) (Float64.of_Z 50)
              "medium" "road" "" "" 50 5)
    as (shuffled & g' & _ & Hrun); try (vm_compute; reflexivity).
  eexists _, g'. rewrite (bind_step _ _ _ _ _ _ Hrun). unfold ret.
  split; [reflexivity|]. repeat split.
Qed.

End ContractExtras.

(** *** The scores on whole percentages *)

Lemma run_percent_scores process_data g r g' a b :
  run process_data g = (Ok r, g') ->
  numeric process_data "recycledContent" = Ok (Float64.of_Z a) ->
  numeric process_data "rawMaterial" = Ok (Float64.of_Z b) ->
  exists energy transport,
    text_field process_data "energyUse" "medium" = JStr energy /\
    text_field process_data "transport" "road" = JStr transport /\
    circularityScore r =
      percent_circularity a b (in_pair (lower energy) "low" "renewable")
                              (in_pair (lower transport) "rail" "sea") /\
    environmentalScore r = percent_environmental a b.
Proof.
  intros H Ha Hb.
  apply run_Ok in H
    as (recycled & raw_material & el & tl & rounded & truncated & ? & ? & ? &
        H1 & H2 & H3 & H4 & H5 & H6 & _ & _ & _ & ->).
  rewrite Ha in H1. injection H1 as <-. rewrite Hb in H2. injection H2 as <-.
  apply call_lower_Ok in H3 as (energy & H3 & ->).
  apply call_lower_Ok in H4 as (transport & H4 & ->).
  exists energy, transport. split; [exact H3|]. split; [exact H4|].
  rewrite circularity_value_cases in H5.
  unfold percent_circularity, percent_environmental. by rewrite H5, H6.
Qed.

(** X8. With recycledContent and rawMaterial whole numbers from 0 to 100
    (an absent key counts as 50, an empty value as 0), a run that returns
    gives a circularity score from 20 to 95 and an environmental score
    from 50 to 80: the clamp to 0..100 is never reached. *)
Theorem run_assessment_percent_range process_data g r g' a b :
  run process_data g = (Ok r, g') ->
  numeric process_data "recycledContent" = Ok (Float64.of_Z a) ->
  numeric process_data "rawMaterial" = Ok (Float64.of_Z b) ->
  0 <= a <= 100 -> 0 <= b <= 100 ->
  20 <= circularityScore r <= 95 /\ 50 <= environmentalScore r <= 80.
Proof.
  intros H Ha Hb Hra Hrb.
  destruct (run_percent_scores _ _ _ _ _ _ H Ha Hb)
    as (energy & transport & _ & _ & -> & ->).
  by apply percent_scores_range.
Qed.

(** X9. On whole percentages both scores are monotone: of two runs that
    return with the same energyUse and transport, the one with at least
    as much recycledContent and at most as much rawMaterial has scores at
    least as high. *)
Theorem run_assessment_monotone pd1 pd2 g1 g2 r1 r2 g1' g2' a1 b1 a2 b2 :
  run pd1 g1 = (Ok r1, g1') ->
  run pd2 g2 = (Ok r2, g2') ->
  numeric pd1 "recycledContent" = Ok (Float64.of_Z a1) ->
  numeric pd1 "rawMaterial" = Ok (Float64.of_Z b1) ->
  numeric pd2 "recycledContent" = Ok (Float64.of_Z a2) ->
  numeric pd2 "rawMaterial" = Ok (Float64.of_Z b2) ->
  text_field pd1 "energyUse" "medium" = text_field pd2 "energyUse" "medium" ->
  text_field pd1 "transport" "road" = text_field pd2 "transport" "road" ->
  0 <= a1 -> a1 <= a2 -> a2 <= 100 -> 0 <= b2 -> b2 <= b1 -> b1 <= 100 ->
  circularityScore r1 <= circularityScore r2 /\
  environmentalScore r1 <= environmentalScore r2.
Proof.
  intros H1 H2 Ha1 Hb1 Ha2 Hb2 He Ht ? ? ? ? ? ?.
  destruct (run_percent_scores _ _ _ _ _ _ H1 Ha1 Hb1)
    as (e1 & t1 & He1 & Ht1 & -> & ->).
  destruct (run_percent_scores _ _ _ _ _ _ H2 Ha2 Hb2)
    as (e2 & t2 & He2 & Ht2 & -> & ->).
  rewrite He1, He2 in He. injection He as ->.
  rewrite Ht1, Ht2 in Ht. injection Ht as ->.
  by apply percent_scores_monotone.
Qed.

(** X10. On whole percentages the circularity score depends on the two
    numeric fields through their difference only: two runs that return
    with the same energyUse and transport and the same difference
    recycledContent - rawMaterial give the same circularity score. *)
Theorem run_assessment_difference pd1 pd2 g1 g2 r1 r2 g1' g2' a1 b1 a2 b2 :
  run pd1 g1 = (Ok r1, g1') ->
  run pd2 g2 = (Ok r2, g2') ->
  numeric pd1 "recycledContent" = Ok (Float64.of_Z a1) ->
  numeric pd1 "rawMaterial" = Ok (Float64.of_Z b1) ->
  numeric pd2 "recycledContent" = Ok (Float64.of_Z a2) ->
  numeric pd2 "rawMaterial" = Ok (Float64.of_Z b2) ->
  text_field pd1 "energyUse" "medium" = text_field pd2 "energyUse" "medium" ->
  text_field pd1 "transport" "road" = text_field pd2 "transport" "road" ->
  0 <= a1 <= 100 -> 0 <= b1 <= 100 -> 0 <= a2 <= 100 -> 0 <= b2 <= 100 ->
  a1 - b1 = a2 - b2 ->
  circularityScore r1 = circularityScore r2.
Proof.
  intros H1 H2 Ha1 Hb1 Ha2 Hb2 He Ht ? ? ? ? ?.
  destruct (run_percent_scores _ _ _ _ _ _ H1 Ha1 Hb1)
    as (e1 & t1 & He1 & Ht1 & -> & _).
  destruct (run_percent_scores _ _ _ _ _ _ H2 Ha2 Hb2)
    as (e2 & t2 & He2 & Ht2 & -> & _).
  rewrite He1, He2 in He. injection He as ->.
  rewrite Ht1, Ht2 in Ht. injection Ht as ->.
  by apply percent_circularity_difference.
Qed.

(** X11. On whole percentages, of two runs that return with the same
    numeric fields, a low or renewable energyUse against any other one
    raises the circularity score by exactly 10 when the transport is the
    same, and a rail or sea transport against any other one raises it by
    4, 5 or 6 when the energyUse is the same: the 5 is added before the
    rounding, which sends a tie to the even neighbour. *)
Theorem run_assessment_bonuses pd1 pd2 g1 g2 r1 r2 g1' g2' a b e1 t1 e2 t2 :
  run pd1 g1 = (Ok r1, g1') ->
  run pd2 g2 = (Ok r2, g2') ->
  numeric pd1 "recycledContent" = Ok (Float64.of_Z a) ->
  numeric pd1 "rawMaterial" = Ok (Float64.of_Z b) ->
  numeric pd2 "recycledContent" = Ok (Float64.of_Z a) ->
  numeric pd2 "rawMaterial" = Ok (Float64.of_Z b) ->
  0 <= a <= 100 -> 0 <= b <= 100 ->
  text_field pd1 "energyUse" "medium" = JStr e1 ->
  text_field pd1 "transport" "road" = JStr t1 ->
  text_field pd2 "energyUse" "medium" = JStr e2 ->
  text_field pd2 "transport" "road" = JStr t2 ->
  (in_pair (lower e1) "low" "renewable" = true ->
   in_pair (lower e2) "low" "renewable" = false ->
   in_pair (lower t1) "rail" "sea" = in_pair (lower t2) "rail" "sea" ->
   circularityScore r1 = circularityScore r2 + 10) /\
  (in_pair (lower t1) "rail" "sea" = true ->
   in_pair (lower t2) "rail" "sea" = false ->
   in_pair (lower e1) "low" "renewable" = in_pair (lower e2) "low" "renewable" ->
   4 <= circularityScore r1 - circularityScore r2 <= 6).
Proof.
  intros H1 H2 Ha1 Hb1 Ha2 Hb2 Ha Hb He1 Ht1 He2 Ht2.
  destruct (run_percent_scores _ _ _ _ _ _ H1 Ha1 Hb1)
    as (e1' & t1' & He1' & Ht1' & -> & _).
  destruct (run_percent_scores _ _ _ _ _ _ H2 Ha2 Hb2)
    as (e2' & t2' & He2' & Ht2' & -> & _).
  rewrite He1 in He1'. injection He1' as <-.
  rewrite Ht1 in Ht1'. injection Ht1' as <-.
  rewrite He2 in He2'. injection He2' as <-.
  rewrite Ht2 in Ht2'. injection Ht2' as <-.
  destruct (percent_circularity_bonus a b Ha Hb) as [Henergy Htransport].
  split.
  - intros -> -> ->. apply Henergy.
  - intros -> -> ->. apply Htransport.
Qed.

End HandlerExtras.


(** ** The name of the exported file *)

Lemma strftime_compact_inj t1 t2 :
  valid_datetime t1 -> valid_datetime t2 ->
  strftime_compact t1 = strftime_compact t2 -> t1 = t2.
Proof.
  intros (Hy1 & Hm1 & Hd1 & HH1 & HM1 & HS1) (Hy2 & Hm2 & Hd2 & HH2 & HM2 & HS2).
  unfold strftime_compact.
  assert (Hlen4 : forall n, 1000 <= n <= 9999 ->
            String.length (Csv.str_of_Z n) = 4%nat).
  { intros n Hn. apply (fullmatch_length (repeat Digit 4)).
    apply year_4_digits. lia. }
  assert (Hlen2 : forall n, 0 <= n <= 99 ->
            String.length (zero_pad 2 n) = 2%nat).
  { intros n Hn. apply (fullmatch_length (repeat Digit 2)).
    apply zero_pad_2_digits. lia. }
  intros H.
  apply append_inj_length in H as [Hy H]; [|rewrite !Hlen4; lia].
  apply append_inj_length in H as [Hm H]; [|rewrite !Hlen2; lia].
  apply append_inj_length in H as [Hd H]; [|rewrite !Hlen2; lia].
  apply append_inj_length in H as [_ H]; [|reflexivity].
  apply append_inj_length in H as [HH H]; [|rewrite !Hlen2; lia].
  apply append_inj_length in H as [HM H]; [|rewrite !Hlen2; lia].
  apply append_inj_length in H as [HS _]; [|rewrite !Hlen2; lia].
  apply str_of_Z_inj in Hy; [|lia..].
  apply zero_pad_inj in Hm, Hd, HH, HM, HS; [|lia..].
  destruct t1, t2; simpl in *. congruence.
Qed.

(** X12. Two exports at different seconds go under different file
    names: for clock readings with a year of four digits, the name
    determines the reading. *)
Theorem export_report_csv_name_injective t1 t2 :
  valid_datetime t1 -> valid_datetime t2 ->
  download_name (export_report_csv t1) = download_name (export_report_csv t2) ->
  t1 = t2.
Proof.
  intros Hv1 Hv2 H. unfold export_report_csv in H. simpl in H.
  apply String.app_inj in H.
  apply append_inj_length in H as [H _].
  - by apply strftime_compact_inj.
  - rewrite (fullmatch_length _ _ (strftime_compact_matches t1 Hv1)),
            (fullmatch_length _ _ (strftime_compact_matches t2 Hv2)).
    reflexivity.
Qed.

(** ** The health route *)

Lemma seconds_matches (d : datetime) (tail : string) (p : list pattern_item) :
  1 <= year d <= 9999 -> 1 <= month d <= 12 -> 1 <= day d <= 31 ->
  0 <= hour d <= 23 -> 0 <= minute d <= 59 -> 0 <= second d <= 59 ->
  fullmatch p tail = true ->
  fullmatch (seconds_pattern ++ p)
    (zero_pad 4 (year d) +:+ "-" +:+ zero_pad 2 (month d) +:+ "-" +:+
     zero_pad 2 (day d) +:+ "T" +:+ zero_pad 2 (hour d) +:+ ":" +:+
     zero_pad 2 (minute d) +:+ ":" +:+ zero_pad 2 (second d) +:+ tail) = true.
Proof.
  intros Hy Hm Hd HH HM HS Htail.
  assert (H4 : forall n, 0 <= n <= 9999 ->
            fullmatch (repeat Digit 4) (zero_pad 4 n) = true).
  { intros n Hn. by apply (zero_pad_digits 4 n 9999). }
  assert (H2 : forall n, 0 <= n <= 99 ->
            fullmatch (repeat Digit 2) (zero_pad 2 n) = true).
  { intros n Hn. apply zero_pad_2_digits. lia. }
  unfold seconds_pattern. rewrite <- !app_assoc.
  repeat (apply fullmatch_app;
          [first [apply H4; lia | apply H2; lia | reflexivity]|]).
  exact Htail.
Qed.

Lemma decimal_value_zero_pad width n :
  0 <= n -> decimal_value (zero_pad width n) = n.
Proof.
  intros Hn. unfold decimal_value, zero_pad.
  rewrite str_of_Z_uint, zero_pad_uint, NilEmpty.usu by done.
  rewrite of_uint_zeros, DecimalN.Unsigned.of_to. lia.
Qed.

Lemma zero_pad_length width n bound :
  0 <= n <= bound ->
  (String.length (Csv.str_of_Z bound) <= width)%nat ->
  String.length (zero_pad width n) = width.
Proof.
  intros Hn Hw.
  rewrite (fullmatch_length _ _ (zero_pad_digits width n bound Hn Hw)).
  apply repeat_length.
Qed.

(** Where the fields of a timestamp stand. *)
Lemma stamp_fields (y mo d h mi s tail : string) :
  String.length y = 4%nat -> String.length mo = 2%nat ->
  String.length d = 2%nat -> String.length h = 2%nat ->
  String.length mi = 2%nat -> String.length s = 2%nat ->
  forall ts,
    ts = (y +:+ "-" +:+ mo +:+ "-" +:+ d +:+ "T" +:+ h +:+ ":" +:+ mi +:+ ":"
          +:+ s +:+ tail)%string ->
    substring 0 4 ts = y /\ substring 5 2 ts = mo /\ substring 8 2 ts = d /\
    substring 11 2 ts = h /\ substring 14 2 ts = mi /\ substring 17 2 ts = s /\
    forall start len, substring (19 + start) len ts = substring start len tail.
Proof.
  intros Hy Hmo Hd Hh Hmi Hs ts ->.
  destruct y as [|y1 [|y2 [|y3 [|y4 [|]]]]]; try discriminate Hy.
  destruct mo as [|mo1 [|mo2 [|]]]; try discriminate Hmo.
  destruct d as [|d1 [|d2 [|]]]; try discriminate Hd.
  destruct h as [|h1 [|h2 [|]]]; try discriminate Hh.
  destruct mi as [|mi1 [|mi2 [|]]]; try discriminate Hmi.
  destruct s as [|s1 [|s2 [|]]]; try discriminate Hs.
  split_and!; try reflexivity. destruct tail; reflexivity.
Qed.

Lemma fraction_field (us : string) :
  String.length us = 6%nat ->
  substring 1 6 ("." +:+ us +:+ "Z") = us.
Proof.
  intros Hus.
  destruct us as [|u1 [|u2 [|u3 [|u4 [|u5 [|u6 [|]]]]]]]; try discriminate Hus.
  reflexivity.
Qed.

(** X13. The health route answers 200 with the status ok and a
    timestamp that reads back as the clock: its characters 0 to 3 are the
    year, 5 and 6 the month, 8 and 9 the day, 11 and 12 the hour, 14 and
    15 the minute, 17 and 18 the second, each in decimal and padded with
    zeros, with the separators - - T : : between them and Z at the end,
    20 characters in all; unless the microseconds are not zero, in which
    case a point and the microseconds on six digits, the characters 20
    to 25, stand before the Z, 27 characters in all. *)
Theorem health_timestamp t :
  valid_instant t ->
  snd (health t) = 200 /\
  status (fst (health t)) = "ok"%string /\
  field_at (timestamp (fst (health t))) 0 4 = year (at_second t) /\
  field_at (timestamp (fst (health t))) 5 2 = month (at_second t) /\
  field_at (timestamp (fst (health t))) 8 2 = day (at_second t) /\
  field_at (timestamp (fst (health t))) 11 2 = hour (at_second t) /\
  field_at (timestamp (fst (health t))) 14 2 = minute (at_second t) /\
  field_at (timestamp (fst (health t))) 17 2 = second (at_second t) /\
  (microsecond t = 0 ->
   fullmatch (seconds_pattern ++ literal "Z") (timestamp (fst (health t))) = true /\
   String.length (timestamp (fst (health t))) = 20%nat) /\
  (microsecond t <> 0 ->
   fullmatch (seconds_pattern ++ literal "." ++ repeat Digit 6 ++ literal "Z")
     (timestamp (fst (health t))) = true /\
   String.length (timestamp (fst (health t))) = 27%nat /\
   field_at (timestamp (fst (health t))) 20 6 = microsecond t).
Proof.
  intros (Hy & Hm & Hd & HH & HM & HS & Hus).
  split; [reflexivity|]. split; [reflexivity|].
  assert (L4 : forall n, 0 <= n <= 9999 -> String.length (zero_pad 4 n) = 4%nat).
  { intros n Hn. by apply (zero_pad_length 4 n 9999). }
  assert (L2 : forall n, 0 <= n <= 99 -> String.length (zero_pad 2 n) = 2%nat).
  { intros n Hn. by apply (zero_pad_length 2 n 99). }
  assert (L6 : String.length (zero_pad 6 (microsecond t)) = 6%nat).
  { by apply (zero_pad_length 6 _ 999999). }
  unfold health, isoformat, field_at. simpl fst. simpl timestamp.
  rewrite !append_assoc_string.
  destruct (stamp_fields
              (zero_pad 4 (year (at_second t))) (zero_pad 2 (month (at_second t)))
              (zero_pad 2 (day (at_second t))) (zero_pad 2 (hour (at_second t)))
              (zero_pad 2 (minute (at_second t))) (zero_pad 2 (second (at_second t)))
              ((if microsecond t =? 0 then EmptyString
                else "." +:+ zero_pad 6 (microsecond t)) +:+ "Z")
              ltac:(apply L4; lia) ltac:(apply L2; lia) ltac:(apply L2; lia)
              ltac:(apply L2; lia) ltac:(apply L2; lia) ltac:(apply L2; lia)
              _ eq_refl)
    as (F1 & F2 & F3 & F4 & F5 & F6 & Ftail).
  rewrite F1, F2, F3, F4, F5, F6, !decimal_value_zero_pad by lia.
  do 6 (split; [reflexivity|]).
  split.
  - intros Hzero. rewrite Hzero. simpl Z.eqb. cbv iota.
    assert (Hmatch : fullmatch (seconds_pattern ++ literal "Z")
              (zero_pad 4 (year (at_second t)) +:+ "-" +:+
               zero_pad 2 (month (at_second t)) +:+ "-" +:+
               zero_pad 2 (day (at_second t)) +:+ "T" +:+
               zero_pad 2 (hour (at_second t)) +:+ ":" +:+
               zero_pad 2 (minute (at_second t)) +:+ ":" +:+
               zero_pad 2 (second (at_second t)) +:+ "" +:+ "Z") = true).
    { by apply seconds_matches. }
    split; [exact Hmatch|]. by rewrite (fullmatch_length _ _ Hmatch).
  - intros Hnonzero.
    change 20%nat with (19 + 1)%nat. rewrite Ftail.
    destruct (Z.eqb_spec (microsecond t) 0) as [|_]; [done|].
    rewrite !append_assoc_string.
    assert (Hmatch :
              fullmatch (seconds_pattern ++ literal "." ++ repeat Digit 6
                         ++ literal "Z")
              (zero_pad 4 (year (at_second t)) +:+ "-" +:+
               zero_pad 2 (month (at_second t)) +:+ "-" +:+
               zero_pad 2 (day (at_second t)) +:+ "T" +:+
               zero_pad 2 (hour (at_second t)) +:+ ":" +:+
               zero_pad 2 (minute (at_second t)) +:+ ":" +:+
               zero_pad 2 (second (at_second t)) +:+ "." +:+
               zero_pad 6 (microsecond t) +:+ "Z") = true).
    { apply seconds_matches; try done.
      apply (fullmatch_app (literal ".")); [reflexivity|].
      apply fullmatch_app; [|reflexivity].
      by apply (zero_pad_digits 6 _ 999999). }
    split; [exact Hmatch|]. split; [by rewrite (fullmatch_length _ _ Hmatch)|].
    rewrite (fraction_field _ L6). apply decimal_value_zero_pad. lia.
Qed.

(** ** The manifest and the tables *)

(** X15. The manifest of [api_index] lists, in the order of their
    registration, exactly the rules registered under /api/, each with its
    method; it is answered with the status 200. *)
Theorem api_index_manifest :
  snd (fst api_index) =
    map (fun rule => method_name (fst rule) +:+ " " +:+ snd rule)
        (List.filter (fun rule => String.prefix "/api/" (snd rule)) url_rules) /\
  snd api_index = 200 /\
  (forall endpoint, endpoint ∈ snd (fst api_index) ->
     exists m rule, (m, rule) ∈ url_rules /\
                    endpoint = (method_name m +:+ " " +:+ rule)%string /\
                    exists rest, rule = ("/api/" +:+ rest)%string).
Proof.
  assert (Hlist : snd (fst api_index) =
    map (fun rule => method_name (fst rule) +:+ " " +:+ snd rule)
        (List.filter (fun rule => String.prefix "/api/" (snd rule)) url_rules))
    by reflexivity.
  split; [exact Hlist|]. split; [reflexivity|].
  intros endpoint Hin. rewrite Hlist in Hin.
  apply list_elem_of_In, in_map_iff in Hin
    as ([m rule] & <- & [Hrule Hprefix]%filter_In).
  exists m, rule. split; [by apply list_elem_of_In|]. split; [reflexivity|].
  by apply prefix_append.
Qed.

(** X16. The pie data has three slices, with distinct names, whose
    values add up to 100. *)
Theorem get_pie_data_total :
  length (fst get_pie_data) = 3%nat /\
  NoDup (map slice_name (fst get_pie_data)) /\
  foldr Z.add 0 (map slice_value (fst get_pie_data)) = 100 /\
  snd get_pie_data = 200.
Proof.
  split; [reflexivity|]. split; [|split; reflexivity].
  apply (bool_decide_unpack _). vm_compute. exact I.
Qed.


(** ** The further properties on the concrete runtime *)

Lemma post_api_assessment_default_witness :
  exists r g',
    post_api_assessment Demo.demo_float_of_str nat Demo.demo_seed
      Demo.demo_reseed Demo.demo_randbelow None 0%nat = (Ok (r, 200), g') /\
    circularityScore r = 50 /\ environmentalScore r = 65 /\
    missingParams r = 7 /\ debug_missingFields r = expected_fields.
Proof.
  apply (post_api_assessment_default Demo.demo_float_of_str nat Demo.demo_seed
           Demo.demo_reseed Demo.demo_randbelow demo_randbelow_lt None 0%nat).
  left. reflexivity.
Defined.

Lemma run_assessment_reads_only_witness :
  Demo.run_state (<[ "endOfLife" := JStr "landfill" ]>
                    (<[ "colour" := JInt 3 ]> spec_example_input)) 0
  = Demo.run_state (<[ "endOfLife" := JNull ]> spec_example_input) 0.
Proof.
  apply (run_assessment_reads_only Demo.demo_float_of_str nat Demo.demo_seed
           Demo.demo_reseed Demo.demo_randbelow).
  - intros k Hk. unfold read_keys in Hk.
    repeat (apply elem_of_cons in Hk as [-> | Hk]; [reflexivity|]).
    by apply elem_of_nil in Hk.
  - split; discriminate.
Defined.

Lemma numeric_field_errors_witness :
  numeric_field Demo.demo_float_of_str input_recycled_list "recycledContent"
  = Raise TypeError.
Proof.
  apply (proj1 (numeric_field_errors Demo.demo_float_of_str
                  input_recycled_list "recycledContent")).
  exists (JArr [JInt 1]). split; [reflexivity|]. split; [reflexivity|].
  left. by exists [JInt 1].
Defined.

Lemma run_assessment_AttributeError_witness :
  Demo.run input_energy_5 = Raise AttributeError.
Proof.
  apply (run_assessment_AttributeError Demo.demo_float_of_str nat
           Demo.demo_seed Demo.demo_reseed Demo.demo_randbelow
           input_energy_5 0%nat).
  split; [eexists; reflexivity|]. split; [eexists; reflexivity|].
  left. exists (JInt 5). split; [reflexivity|]. split; [reflexivity|]. discriminate.
Defined.

Lemma run_assessment_failure_witness :
  0%nat = 0%nat /\
  (AttributeError = ValueError \/ AttributeError = TypeError \/
   AttributeError = OverflowError \/ AttributeError = AttributeError).
Proof.
  apply (run_assessment_failure Demo.demo_float_of_str nat Demo.demo_seed
           Demo.demo_reseed Demo.demo_randbelow demo_randbelow_lt
           input_energy_5 0%nat AttributeError 0%nat).
  vm_compute. reflexivity.
Defined.

Lemma run_assessment_leaves_generator_witness :
  exists r g',
    Demo.run_state input_a_b 7 = (Ok r, g') /\
    random_shuffle nat Demo.demo_randbelow catalog (Demo.demo_seed (SeedStr "ab"))
    = (Ok (recommendations r), g').
Proof.
  eexists _, _. split; [vm_compute; reflexivity|].
  apply (run_assessment_leaves_generator Demo.demo_float_of_str nat
           Demo.demo_seed Demo.demo_reseed Demo.demo_randbelow
           input_a_b 7%nat _ _ "a" "b"); vm_compute; reflexivity.
Defined.

Lemma run_assessment_percent_range_witness :
  exists r g',
    Demo.run_state (percent_input 15 0 "low" "rail") 0 = (Ok r, g') /\
    20 <= circularityScore r <= 95 /\ 50 <= environmentalScore r <= 80.
Proof.
  eexists _, _. split; [vm_compute; reflexivity|].
  eapply (run_assessment_percent_range Demo.demo_float_of_str nat
            Demo.demo_seed Demo.demo_reseed Demo.demo_randbelow
            (percent_input 15 0 "low" "rail") 0%nat _ _ 15 0);
    first [lia | vm_compute; reflexivity].
Defined.

Lemma run_assessment_monotone_witness :
  exists r1 g1' r2 g2',
    Demo.run_state (percent_input 5 40 "low" "road") 0 = (Ok r1, g1') /\
    Demo.run_state (percent_input 15 30 "low" "road") 0 = (Ok r2, g2') /\
    circularityScore r1 <= circularityScore r2 /\
    environmentalScore r1 <= environmentalScore r2.
Proof.
  eexists _, _, _, _. split; [vm_compute; reflexivity|].
  split; [vm_compute; reflexivity|].
  eapply (run_assessment_monotone Demo.demo_float_of_str nat
            Demo.demo_seed Demo.demo_reseed Demo.demo_randbelow
            (percent_input 5 40 "low" "road") (percent_input 15 30 "low" "road")
            0%nat 0%nat _ _ _ _ 5 40 15 30);
    first [lia | vm_compute; reflexivity].
Defined.

Lemma run_assessment_difference_witness :
  exists r1 g1' r2 g2',
    Demo.run_state (percent_input 15 0 "medium" "sea") 0 = (Ok r1, g1') /\
    Demo.run_state (percent_input 55 40 "medium" "sea") 0 = (Ok r2, g2') /\
    circularityScore r1 = circularityScore r2.
Proof.
  eexists _, _, _, _. split; [vm_compute; reflexivity|].
  split; [vm_compute; reflexivity|].
  eapply (run_assessment_difference Demo.demo_float_of_str nat
            Demo.demo_seed Demo.demo_reseed Demo.demo_randbelow
            (percent_input 15 0 "medium" "sea") (percent_input 55 40 "medium" "sea")
            0%nat 0%nat _ _ _ _ 15 0 55 40);
    first [lia | vm_compute; reflexivity].
Defined.

(** The rail bonus on the tie 54.5 is worth 6 points: 54 becomes 60. *)
Lemma run_assessment_bonuses_witness :
  exists r1 g1' r2 g2',
    Demo.run_state (percent_input 15 0 "medium" "Rail") 0 = (Ok r1, g1') /\
    Demo.run_state (percent_input 15 0 "medium" "road") 0 = (Ok r2, g2') /\
    4 <= circularityScore r1 - circularityScore r2 <= 6 /\
    circularityScore r1 = 60 /\ circularityScore r2 = 54.
Proof.
  eexists _, _, _, _. split; [vm_compute; reflexivity|].
  split; [vm_compute; reflexivity|]. split; [|split; reflexivity].
  refine (proj2 (run_assessment_bonuses Demo.demo_float_of_str nat
            Demo.demo_seed Demo.demo_reseed Demo.demo_randbelow
            (percent_input 15 0 "medium" "Rail") (percent_input 15 0 "medium" "road")
            0%nat 0%nat _ _ _ _ 15 0 "medium" "Rail" "medium" "road"
            _ _ _ _ _ _ _ _ _ _ _ _) _ _ _);
    first [lia | vm_compute; reflexivity].
Defined.

Lemma export_report_csv_name_injective_witness :
  {| year := 2026; month := 11; day := 3; hour := 7; minute := 5; second := 0 |}
  = {| year := 2026; month := 11; day := 3; hour := 7; minute := 5; second := 0 |}.
Proof.
  apply export_report_csv_name_injective;
    [unfold valid_datetime; simpl; lia .. | reflexivity].
Defined.

Lemma health_timestamp_witness :
  field_at (timestamp (fst (health
       {| at_second := {| year := 2026; month := 11; day := 3;
                          hour := 7; minute := 5; second := 0 |};
          microsecond := 7 |}))) 0 4 = 2026 /\
  timestamp (fst (health
       {| at_second := {| year := 2026; month := 11; day := 3;
                          hour := 7; minute := 5; second := 0 |};
          microsecond := 7 |})) = "2026-11-03T07:05:00.000007Z"%string.
Proof.
  split; [|reflexivity].
  apply (health_timestamp
           {| at_second := {| year := 2026; month := 11; day := 3;
                              hour := 7; minute := 5; second := 0 |};
              microsecond := 7 |}).
  unfold valid_instant. simpl. lia.
Defined.

Lemma api_index_manifest_witness :
  exists m rule, (m, rule) ∈ url_rules /\
                 "GET /api/pie-data"%string = (method_name m +:+ " " +:+ rule)%string /\
                 exists rest, rule = ("/api/" +:+ rest)%string.
Proof.
  apply (proj2 (proj2 api_index_manifest)).
  apply list_elem_of_In. simpl. tauto.
Defined.
